(** * Telegram Sync plugin: message-to-note pipeline, folder provisioning,
      bot lifecycle, settings merge and command triggers.

    A shallow embedding of the plugin's TypeScript source.  JavaScript
    strings are modelled as [string] (sequences of 8-bit code units); every
    character the code inspects ([{], [}], [/], [:], [.], word characters,
    decimal digits) is ASCII, so the regular expressions and slices below
    act on these code units exactly as they do on UTF-16 code units. *)

From Stdlib Require Import ZArith QArith Lia Bool List Ascii String.
From stdpp Require Import base option gmap strings.
Import ListNotations.

Local Open Scope Z_scope.
Local Open Scope stdpp_scope.

(* ===================================================================== *)
(** * The JavaScript runtime fragment used by the plugin                  *)
(* ===================================================================== *)

Module JS.

(** Outcome of a call that may throw: [Throw msg] carries the message of
    the thrown [Error]. *)
Inductive Result (A : Type) : Type :=
| Ok (a : A)
| Throw (message : string).
Arguments Ok {A} a.
Arguments Throw {A} message.

Definition bind {A B} (r : Result A) (k : A -> Result B) : Result B :=
  match r with
  | Ok a => k a
  | Throw m => Throw m
  end.

Definition isOk {A} (r : Result A) : bool :=
  match r with
  | Ok _ => true
  | Throw _ => false
  end.

(** ** Characters and strings *)

Definition code (c : ascii) : N := N_of_ascii c.

Definition isDigit (c : ascii) : bool :=
  ((48 <=? code c) && (code c <=? 57))%N.

(** [\w] of a non-unicode regular expression: [A-Za-z0-9_]. *)
Definition isWordChar (c : ascii) : bool :=
  (isDigit c
   || ((65 <=? code c) && (code c <=? 90))
   || ((97 <=? code c) && (code c <=? 122))
   || (code c =? 95))%N.

(** [\s] restricted to 8-bit code units: TAB, LF, VT, FF, CR, SPACE. *)
Definition isSpace (c : ascii) : bool :=
  (((9 <=? code c) && (code c <=? 13)) || (code c =? 32))%N.

(** Truthiness of a string: only the empty string is falsy. *)
Definition truthyString (s : string) : bool :=
  match s with
  | EmptyString => false
  | String _ _ => true
  end.

(** [a || b] on strings. *)
Definition orElse (a b : string) : string :=
  if truthyString a then a else b.

(** [o || b] where [o] is a string or [undefined]. *)
Definition orDefault (o : option string) (b : string) : string :=
  match o with
  | Some a => orElse a b
  | None => b
  end.

(** [s.slice(0, n)]. *)
Fixpoint sliceTo (n : nat) (s : string) : string :=
  match n, s with
  | S n', String c s' => String c (sliceTo n' s')
  | _, _ => EmptyString
  end.

(** [s.replace(/[:.]/g, '-')]: a character-wise substitution. *)
Fixpoint replaceColonDot (s : string) : string :=
  match s with
  | EmptyString => EmptyString
  | String c s' =>
      String (if (Ascii.eqb c ":" || Ascii.eqb c ".")%bool then "-"%char else c)
             (replaceColonDot s')
  end.

(** [s.startsWith(p)]. *)
Fixpoint startsWith (p s : string) : bool :=
  match p, s with
  | EmptyString, _ => true
  | String a p', String b s' => Ascii.eqb a b && startsWith p' s'
  | String _ _, EmptyString => false
  end.

(** [s.includes(p)]; also the result of testing the unanchored regular
    expression whose source is the literal [p]. *)
Fixpoint includes (p s : string) : bool :=
  startsWith p s ||
  match s with
  | EmptyString => false
  | String _ s' => includes p s'
  end.

(** [s.split('/')], with the piece under construction carried in [cur]. *)
Fixpoint splitSlashFrom (cur s : string) : list string :=
  match s with
  | EmptyString => [cur]
  | String c s' =>
      if Ascii.eqb c "/" then cur :: splitSlashFrom EmptyString s'
      else splitSlashFrom (cur +:+ String c EmptyString) s'
  end.

Definition splitSlash (s : string) : list string :=
  splitSlashFrom EmptyString s.

(** ** Numbers *)

Definition digitChar (d : Z) : ascii := ascii_of_N (48 + Z.to_N d).

(** Decimal digits of a non-negative integer, most significant first;
    [fuel] bounds the number of digits. *)
Fixpoint digitsFrom (fuel : nat) (n : Z) (acc : string) : string :=
  match fuel with
  | O => acc
  | S fuel' =>
      let acc' := String (digitChar (n mod 10)) acc in
      if n / 10 =? 0 then acc' else digitsFrom fuel' (n / 10) acc'
  end.

Definition natToString (n : Z) : string :=
  digitsFrom (S (Z.to_nat (Z.log2 n))) n EmptyString.

(** [String(n)] / [n.toString()] for an integral number of magnitude
    below 1e21 (plain decimal notation, no exponent). *)
Definition intToString (n : Z) : string :=
  if n <? 0 then "-" +:+ natToString (- n) else natToString n.

(** Left-pad the decimal rendering of [n] with zeros to [width]. *)
Fixpoint padZeros (k : nat) (s : string) : string :=
  match k with
  | O => s
  | S k' => padZeros k' (String "0" s)
  end.

Definition pad (width : nat) (n : Z) : string :=
  let s := natToString n in
  padZeros (width - String.length s) s.

(** ** Dates (ECMA-262, "Date objects")

    A time value is a number of milliseconds since the epoch; an invalid
    date is [None].  The functions keep the names of the abstract
    operations of the language definition. *)

Definition msPerDay : Z := 86400000.
Definition msPerHour : Z := 3600000.
Definition msPerMinute : Z := 60000.
Definition msPerSecond : Z := 1000.
Definition maxTime : Z := 8640000000000000.

(** [new Date(value)] for an integral number: TimeClip. *)
Definition newDate (value : Z) : option Z :=
  if Z.abs value <=? maxTime then Some value else None.

Definition Day (t : Z) : Z := t / msPerDay.

Definition DayFromYear (y : Z) : Z :=
  365 * (y - 1970) + (y - 1969) / 4 - (y - 1901) / 100 + (y - 1601) / 400.

Definition DaysInYear (y : Z) : Z :=
  if negb (y mod 4 =? 0) then 365
  else if negb (y mod 100 =? 0) then 366
  else if negb (y mod 400 =? 0) then 365
  else 366.

(** The largest [y] with [DayFromYear y <= Day t]: a first estimate from
    the mean length of a year, moved by at most one year. *)
Definition YearFromTime (t : Z) : Z :=
  let d := Day t in
  let y := 1970 + (d * 400) / 146097 in
  if d <? DayFromYear y then y - 1
  else if DayFromYear (y + 1) <=? d then y + 1
  else y.

Definition InLeapYear (t : Z) : Z :=
  if DaysInYear (YearFromTime t) =? 366 then 1 else 0.

Definition DayWithinYear (t : Z) : Z :=
  Day t - DayFromYear (YearFromTime t).

Definition MonthFromTime (t : Z) : Z :=
  let d := DayWithinYear t in
  let l := InLeapYear t in
  if d <? 31 then 0
  else if d <? 59 + l then 1
  else if d <? 90 + l then 2
  else if d <? 120 + l then 3
  else if d <? 151 + l then 4
  else if d <? 181 + l then 5
  else if d <? 212 + l then 6
  else if d <? 243 + l then 7
  else if d <? 273 + l then 8
  else if d <? 304 + l then 9
  else if d <? 334 + l then 10
  else 11.

Definition DateFromTime (t : Z) : Z :=
  let d := DayWithinYear t in
  let l := InLeapYear t in
  match MonthFromTime t with
  | 0 => d + 1
  | 1 => d - 30
  | 2 => d - 58 - l
  | 3 => d - 89 - l
  | 4 => d - 119 - l
  | 5 => d - 150 - l
  | 6 => d - 180 - l
  | 7 => d - 211 - l
  | 8 => d - 242 - l
  | 9 => d - 272 - l
  | 10 => d - 303 - l
  | _ => d - 333 - l
  end.

Definition HourFromTime (t : Z) : Z := (t / msPerHour) mod 24.
Definition MinFromTime (t : Z) : Z := (t / msPerMinute) mod 60.
Definition SecFromTime (t : Z) : Z := (t / msPerSecond) mod 60.
Definition msFromTime (t : Z) : Z := t mod msPerSecond.

(** The year of an ISO string: four digits from 0000 to 9999, otherwise
    a sign and six digits. *)
Definition isoYear (y : Z) : string :=
  if (0 <=? y) && (y <=? 9999) then pad 4 y
  else if y <? 0 then "-" +:+ pad 6 (- y)
  else "+" +:+ pad 6 y.

Definition isoOfTime (t : Z) : string :=
  isoYear (YearFromTime t) +:+ "-" +:+ pad 2 (MonthFromTime t + 1)
    +:+ "-" +:+ pad 2 (DateFromTime t)
    +:+ "T" +:+ pad 2 (HourFromTime t)
    +:+ ":" +:+ pad 2 (MinFromTime t)
    +:+ ":" +:+ pad 2 (SecFromTime t)
    +:+ "." +:+ pad 3 (msFromTime t) +:+ "Z".

(** [date.toISOString()]: throws a [RangeError] on an invalid date. *)
Definition toISOString (date : option Z) : Result string :=
  match date with
  | Some t => Ok (isoOfTime t)
  | None => Throw "Invalid time value"
  end.

End JS.

Import JS.

(* ===================================================================== *)
(** * Data model                                                          *)
(* ===================================================================== *)

(** A value of TypeScript type [any]; only its truthiness is observed. *)
Inductive JsAny : Type :=
| JsNull
| JsBool (b : bool)
| JsNumber (n : Z)
| JsString (s : string)
| JsObject.

Definition truthy (v : JsAny) : bool :=
  match v with
  | JsNull => false
  | JsBool b => b
  | JsNumber n => negb (n =? 0)
  | JsString s => truthyString s
  | JsObject => true
  end.

(** [interface TelegramMessage]: an optional property is an [option],
    [None] standing for [undefined].  The numbers Telegram sends as
    integers (ids, the date in seconds, durations) are in [Z]; the
    coordinates of a location are fractions. *)
Record User : Type := {
  user_id : Z;
  first_name : option string;
  last_name : option string;
  user_username : option string
}.

Record Chat : Type := {
  chat_id : Z;
  chat_type : string;
  chat_title : option string;
  chat_username : option string
}.

Record Document : Type := { file_name : option string }.
Record Audio : Type := { title : option string; audio_duration : option Z }.
Record Voice : Type := { duration : Z }.
Record Sticker : Type := { emoji : option string }.
Record Location : Type := { latitude : Q; longitude : Q }.

Record TelegramMessage : Type := {
  message_id : Z;
  from : option User;
  chat : Chat;
  date : Z;
  text : option string;
  caption : option string;
  photo : option (list JsAny);
  document : option Document;
  audio : option Audio;
  voice : option Voice;
  video : option JsAny;
  sticker : option Sticker;
  location : option Location
}.

Record Templates : Type := {
  titleTemplate : string;
  metadataTemplate : string;
  textMessageTemplate : string;
  photoTemplate : string;
  documentTemplate : string;
  audioTemplate : string;
  voiceTemplate : string;
  videoTemplate : string;
  stickerTemplate : string;
  locationTemplate : string;
  unknownTemplate : string
}.

Record TelegramSyncSettings : Type := {
  botToken : string;
  folderPath : string;
  includeMetadata : bool;
  supportCommands : bool;
  templates : Templates
}.

(** The line feed of the template literals. *)
Definition nl : string := String (ascii_of_N 10) EmptyString.

Definition DEFAULT_TEMPLATES : Templates := {|
  titleTemplate := "# Telegram Message";
  metadataTemplate :=
    "- **From**: {{from}}" +:+ nl +:+ "- **Date**: {{date}}" +:+ nl
      +:+ "- **Chat**: {{chat}}";
  textMessageTemplate := "## Message" +:+ nl +:+ nl +:+ "{{text}}";
  photoTemplate :=
    "## Photo" +:+ nl +:+ nl +:+ "*[Photo message received]*" +:+ nl +:+ nl
      +:+ "Caption: {{caption}}";
  documentTemplate :=
    "## Document" +:+ nl +:+ nl +:+ "*[Document received]*" +:+ nl +:+ nl
      +:+ "Filename: {{filename}}";
  audioTemplate :=
    "## Audio" +:+ nl +:+ nl +:+ "*[Audio message received]*" +:+ nl +:+ nl
      +:+ "Title: {{title}}";
  voiceTemplate :=
    "## Voice Message" +:+ nl +:+ nl +:+ "*[Voice message received]*" +:+ nl
      +:+ nl +:+ "Duration: {{duration}} seconds";
  videoTemplate :=
    "## Video" +:+ nl +:+ nl +:+ "*[Video message received]*" +:+ nl +:+ nl
      +:+ "Caption: {{caption}}";
  stickerTemplate :=
    "## Sticker" +:+ nl +:+ nl +:+ "*[Sticker received]*" +:+ nl +:+ nl
      +:+ "Emoji: {{emoji}}";
  locationTemplate :=
    "## Location" +:+ nl +:+ nl +:+ "*[Location shared]*" +:+ nl +:+ nl
      +:+ "Latitude: {{latitude}}" +:+ nl +:+ "Longitude: {{longitude}}";
  unknownTemplate :=
    "## Unknown Message Type" +:+ nl +:+ nl
      +:+ "*[Unsupported message type received]*"
|}.

Definition DEFAULT_SETTINGS : TelegramSyncSettings := {|
  botToken := "";
  folderPath := "Telegram";
  includeMetadata := true;
  supportCommands := true;
  templates := DEFAULT_TEMPLATES
|}.

(** What the host environment decides: the locale-dependent rendering of a
    date and the shortest round-trip rendering of a fractional number. *)
Record Host : Type := {
  toLocaleString : Z -> string;
  numberToString : Q -> string
}.

(* ===================================================================== *)
(** * Template engine: [processTemplate]                                  *)
(* ===================================================================== *)

(** The placeholder marker for an identifier. *)
Definition marker (key : string) : string := "{{" +:+ key +:+ "}}".

Fixpoint allWordChars (s : string) : bool :=
  match s with
  | EmptyString => true
  | String c s' => isWordChar c && allWordChars s'
  end.

(** An identifier: one or more word characters ([\w+]). *)
Definition isIdentifier (key : string) : bool :=
  truthyString key && allWordChars key.

(** [\w*] at the head of [s]: the longest run of word characters and what
    follows it. *)
Fixpoint spanWord (s : string) : string * string :=
  match s with
  | EmptyString => (EmptyString, EmptyString)
  | String c s' =>
      if isWordChar c
      then let (w, r) := spanWord s' in (String c w, r)
      else (EmptyString, s)
  end.

(** A match of [/\{\{(\w+)\}\}/] anchored at the head of [s]: the captured
    identifier and the text after the match.  The greedy [\w+] cannot give
    characters back, because what must follow it is not a word character. *)
Definition matchMarker (s : string) : option (string * string) :=
  match s with
  | String c1 (String c2 s1) =>
      if Ascii.eqb c1 "{" && Ascii.eqb c2 "{" then
        match spanWord s1 with
        | (String c w, String d1 (String d2 r)) =>
            if Ascii.eqb d1 "}" && Ascii.eqb d2 "}"
            then Some (String c w, r) else None
        | _ => None
        end
      else None
  | _ => None
  end.

(** [template.replace(/\{\{(\w+)\}\}/g, replacer)]: scan left to right; at
    a match emit [replacer match key] and resume after the match ([skip]
    counts the characters of the match still to pass over); elsewhere copy
    one character.  Replacement text is not scanned again. *)
Fixpoint replaceMarkers (replacer : string -> string -> string)
    (skip : nat) (s : string) : string :=
  match s with
  | EmptyString => EmptyString
  | String c s' =>
      match skip with
      | S n => replaceMarkers replacer n s'
      | O =>
          match matchMarker s with
          | Some (key, _) =>
              replacer (marker key) key
                +:+ replaceMarkers replacer (3 + String.length key) s'
          | None => String c (replaceMarkers replacer 0 s')
          end
      end
  end.

Definition nativeFunction (name : string) : string :=
  "function " +:+ name +:+ "() { [native code] }".

(** The properties every object literal inherits from [Object.prototype],
    each with the string its value converts to: the built-in methods are
    functions (shown the way the V8 engine of the host application prints
    a native function), [__proto__] reads as the prototype object itself.
    All of these values are objects, hence truthy. *)
Definition ObjectPrototype (key : string) : option string :=
  if String.eqb key "constructor" then Some (nativeFunction "Object")
  else if existsb (String.eqb key)
            ["toString"; "toLocaleString"; "valueOf"; "hasOwnProperty";
             "isPrototypeOf"; "propertyIsEnumerable"; "__defineGetter__";
             "__defineSetter__"; "__lookupGetter__"; "__lookupSetter__"]
  then Some (nativeFunction key)
  else if String.eqb key "__proto__" then Some "[object Object]"
  else None.

(** [variables[key]]: an own property, else an inherited one, else
    [undefined]. *)
Definition getProperty (variables : gmap string string) (key : string)
  : option string :=
  match variables !! key with
  | Some v => Some v
  | None => ObjectPrototype key
  end.

(** [(match, key) => variables[key] || match], followed by the conversion
    of the result to a string that [replace] performs. *)
Definition replacer (variables : gmap string string) (match_ key : string)
  : string :=
  orDefault (getProperty variables key) match_.

Definition processTemplate (template : string)
    (variables : gmap string string) : string :=
  replaceMarkers (replacer variables) 0 template.

(* ===================================================================== *)
(** * Note rendering: [processMessage]                                    *)
(* ===================================================================== *)

(** [`${msg.from?.first_name || ''} ${msg.from?.last_name || ''}
      ${msg.from?.username ? `(@${msg.from.username})` : ''}`] *)
Definition fromName (msg : TelegramMessage) : string :=
  orDefault (from msg ≫= first_name) ""
    +:+ " " +:+ orDefault (from msg ≫= last_name) ""
    +:+ " " +:+ match from msg ≫= user_username with
                | Some (String _ _ as u) => "(@" +:+ u +:+ ")"
                | _ => ""
                end.

(** [msg.chat.title || msg.chat.username || 'Private Chat'] *)
Definition chatName (msg : TelegramMessage) : string :=
  orDefault (chat_title (chat msg))
            (orDefault (chat_username (chat msg)) "Private Chat").

(** [timestamp.toLocaleString()]; an invalid date renders as a fixed text. *)
Definition localeOf (host : Host) (timestamp : option Z) : string :=
  match timestamp with
  | Some t => toLocaleString host t
  | None => "Invalid Date"
  end.

(** The [if (msg.text) ... else if (msg.photo) ... else ...] chain: the
    rendered content block of the note. *)
Definition contentBlock (host : Host) (tpl : Templates)
    (msg : TelegramMessage) : string :=
  match text msg with
  | Some (String _ _ as t) =>
      processTemplate (textMessageTemplate tpl) {[ "text" := t ]}
  | _ =>
  match photo msg with
  | Some _ =>
      processTemplate (photoTemplate tpl)
        {[ "caption" := orDefault (caption msg) "No caption" ]}
  | None =>
  match document msg with
  | Some d =>
      processTemplate (documentTemplate tpl)
        {[ "filename" := orDefault (file_name d) "Unknown" ]}
  | None =>
  match audio msg with
  | Some a =>
      processTemplate (audioTemplate tpl)
        {[ "title" := orDefault (title a) "Unknown" ]}
  | None =>
  match voice msg with
  | Some v =>
      processTemplate (voiceTemplate tpl)
        {[ "duration" := intToString (duration v) ]}
  | None =>
  if from_option truthy false (video msg) then
      processTemplate (videoTemplate tpl)
        {[ "caption" := orDefault (caption msg) "No caption" ]}
  else
  match sticker msg with
  | Some s =>
      processTemplate (stickerTemplate tpl)
        {[ "emoji" := orDefault (emoji s) "No emoji" ]}
  | None =>
  match location msg with
  | Some l =>
      processTemplate (locationTemplate tpl)
        {[ "latitude" := numberToString host (latitude l);
           "longitude" := numberToString host (longitude l) ]}
  | None => processTemplate (unknownTemplate tpl) ∅
  end end end end end end end.

(** [processMessage] up to its last statement: the file name and the note
    content it hands to [vault.create].  [toISOString] throws on an
    invalid date, before anything else is computed. *)
Definition processMessage (host : Host) (settings : TelegramSyncSettings)
    (msg : TelegramMessage) : Result (string * string) :=
  let timestamp := newDate (date msg * 1000) in
  bind (toISOString timestamp) (fun iso =>
  let formattedDate := sliceTo 19 (replaceColonDot iso) in
  let fileName :=
    folderPath settings +:+ "/" +:+ formattedDate +:+ "-"
      +:+ intToString (message_id msg) +:+ ".md" in
  let noteContent := "" in
  let noteContent :=
    if includeMetadata settings then
      let noteContent :=
        noteContent
          +:+ processTemplate (titleTemplate (templates settings)) ∅
          +:+ nl +:+ nl in
      noteContent
        +:+ processTemplate (metadataTemplate (templates settings))
              {[ "from" := fromName msg;
                 "date" := localeOf host timestamp;
                 "chat" := chatName msg ]}
        +:+ nl +:+ nl
    else noteContent in
  let noteContent :=
    noteContent +:+ contentBlock host (templates settings) msg in
  Ok (fileName, noteContent)).

(** The time stamp of a file name in the form the specification gives it,
    [YYYY-MM-DDTHH-MM-SS], from the UTC fields of a time value. *)
Definition utcStamp (t : Z) : string :=
  pad 4 (YearFromTime t) +:+ "-" +:+ pad 2 (MonthFromTime t + 1)
    +:+ "-" +:+ pad 2 (DateFromTime t)
    +:+ "T" +:+ pad 2 (HourFromTime t)
    +:+ "-" +:+ pad 2 (MinFromTime t)
    +:+ "-" +:+ pad 2 (SecFromTime t).

(** The first and the last second of the years 0000 to 9999. *)
Definition firstSecondOfYear0 : Z := -62167219200.
Definition lastSecondOfYear9999 : Z := 253402300799.

(** The message of the specification's worked example,
    [{id: 42, date: 1710000000, chat: {id: 1, type: "private"},
      text: "hello"}], and its settings: the defaults with
    [includeMetadata: false]. *)
Definition exampleMessage : TelegramMessage := {|
  message_id := 42;
  from := None;
  chat := {| chat_id := 1; chat_type := "private";
             chat_title := None; chat_username := None |};
  date := 1710000000;
  text := Some "hello";
  caption := None;
  photo := None;
  document := None;
  audio := None;
  voice := None;
  video := None;
  sticker := None;
  location := None
|}.

Definition exampleSettings : TelegramSyncSettings := {|
  botToken := botToken DEFAULT_SETTINGS;
  folderPath := folderPath DEFAULT_SETTINGS;
  includeMetadata := false;
  supportCommands := supportCommands DEFAULT_SETTINGS;
  templates := templates DEFAULT_SETTINGS
|}.

(** A host for worked examples: dates shown in ISO form, numbers as the
    quotient they are. *)
Definition exampleHost : Host := {|
  toLocaleString := isoOfTime;
  numberToString :=
    fun q => intToString (Qnum q) +:+ "/" +:+ intToString (Z.pos (Qden q))
|}.

Fixpoint allDigits (s : string) : bool :=
  match s with
  | EmptyString => true
  | String c s' => isDigit c && allDigits s'
  end.

(** [pad width n] is [width] decimal digits. *)
Definition padShape (width : nat) (n : Z) : bool :=
  (String.length (pad width n) =? width)%nat && allDigits (pad width n).

(** ** Classification

    The content kinds, in the order the chain tests them. *)
Inductive Kind : Type :=
| KText | KPhoto | KDocument | KAudio | KVoice | KVideo | KSticker
| KLocation | KUnknown.

#[global] Instance Kind_eq_dec : EqDecision Kind.
Proof. solve_decision. Defined.

(** The branch of the chain a message takes. *)
Definition classify (msg : TelegramMessage) : Kind :=
  match text msg with
  | Some (String _ _) => KText
  | _ =>
  match photo msg with
  | Some _ => KPhoto
  | None =>
  match document msg with
  | Some _ => KDocument
  | None =>
  match audio msg with
  | Some _ => KAudio
  | None =>
  match voice msg with
  | Some _ => KVoice
  | None =>
  if from_option truthy false (video msg) then KVideo
  else
  match sticker msg with
  | Some _ => KSticker
  | None =>
  match location msg with
  | Some _ => KLocation
  | None => KUnknown
  end end end end end end end.

(** The template a kind is rendered with. *)
Definition templateOf (tpl : Templates) (k : Kind) : string :=
  match k with
  | KText => textMessageTemplate tpl
  | KPhoto => photoTemplate tpl
  | KDocument => documentTemplate tpl
  | KAudio => audioTemplate tpl
  | KVoice => voiceTemplate tpl
  | KVideo => videoTemplate tpl
  | KSticker => stickerTemplate tpl
  | KLocation => locationTemplate tpl
  | KUnknown => unknownTemplate tpl
  end.

(** The variables a kind's branch passes to the template engine. *)
Definition variablesOf (host : Host) (msg : TelegramMessage) (k : Kind)
  : gmap string string :=
  match k with
  | KText => {[ "text" := default "" (text msg) ]}
  | KPhoto | KVideo =>
      {[ "caption" := orDefault (caption msg) "No caption" ]}
  | KDocument =>
      {[ "filename" := orDefault (document msg ≫= file_name) "Unknown" ]}
  | KAudio => {[ "title" := orDefault (audio msg ≫= title) "Unknown" ]}
  | KVoice =>
      from_option (fun v => {[ "duration" := intToString (duration v) ]})
                  ∅ (voice msg)
  | KSticker =>
      {[ "emoji" := orDefault (sticker msg ≫= emoji) "No emoji" ]}
  | KLocation =>
      from_option
        (fun l => {[ "latitude" := numberToString host (latitude l);
                     "longitude" := numberToString host (longitude l) ]})
        ∅ (location msg)
  | KUnknown => ∅
  end.






(* ===================================================================== *)
(** * Folder provisioning: [ensureFolderExists]                           *)
(* ===================================================================== *)

(** The vault is the set of folder paths it holds.  How the vault
    misbehaves is fixed per run: [existsRejects p] and
    [createFolderRejects p] give the error with which the call on [p] is
    rejected, if it is. *)
Record VaultFaults : Type := {
  existsRejects : string -> option string;
  createFolderRejects : string -> option string
}.

Definition noVaultFaults : VaultFaults :=
  {| existsRejects := fun _ => None; createFolderRejects := fun _ => None |}.

(** [vault.adapter.exists(path)] *)
Definition adapterExists (faults : VaultFaults) (vault : gset string)
    (path : string) : Result bool :=
  match existsRejects faults path with
  | Some m => Throw m
  | None => Ok (bool_decide (path ∈ vault))
  end.

(** [vault.createFolder(path)]; creating a folder that exists is an error. *)
Definition createFolder (faults : VaultFaults) (vault : gset string)
    (path : string) : Result (gset string) :=
  match createFolderRejects faults path with
  | Some m => Throw m
  | None =>
      if bool_decide (path ∈ vault) then Throw "Folder already exists."
      else Ok ({[ path ]} ∪ vault)
  end.

(** What a run leaves behind: the vault, the paths [createFolder] was
    called on (in call order), and how the run ended. *)
Record Provisioned : Type := {
  vaultAfter : gset string;
  creationCalls : list string;
  outcome : Result unit
}.

Definition created (path : string) (p : Provisioned) : Provisioned :=
  {| vaultAfter := vaultAfter p;
     creationCalls := path :: creationCalls p;
     outcome := outcome p |}.

Definition failedToCreate (currentPath message : string) : string :=
  "Failed to create folder " +:+ currentPath +:+ ": " +:+ message.

(** The [for (const folder of folders)] loop. *)
Fixpoint ensureFolders (faults : VaultFaults) (folders : list string)
    (currentPath : string) (vault : gset string) : Provisioned :=
  match folders with
  | [] => {| vaultAfter := vault; creationCalls := []; outcome := Ok tt |}
  | folder :: rest =>
      let currentPath := currentPath +:+ folder in
      match adapterExists faults vault currentPath with
      | Throw m =>
          {| vaultAfter := vault; creationCalls := [];
             outcome := Throw (failedToCreate currentPath m) |}
      | Ok true => ensureFolders faults rest (currentPath +:+ "/") vault
      | Ok false =>
          match createFolder faults vault currentPath with
          | Throw m =>
              {| vaultAfter := vault; creationCalls := [currentPath];
                 outcome := Throw (failedToCreate currentPath m) |}
          | Ok vault' =>
              created currentPath
                (ensureFolders faults rest (currentPath +:+ "/") vault')
          end
      end
  end.

Definition ensureFolderExists (faults : VaultFaults) (folderPath : string)
    (vault : gset string) : Provisioned :=
  let folders :=
    List.filter (fun p => (0 <? String.length p)%nat) (splitSlash folderPath) in
  ensureFolders faults folders "" vault.

(* ===================================================================== *)
(** * Bot lifecycle: [startBot], [stopBot], [saveSettings]                *)
(* ===================================================================== *)

(** A [TelegramBot] object: its connection, the token it was built with
    and the listeners registered on it. *)
Record TelegramBot : Type := {
  connection : nat;
  token : string;
  onMessage : bool;
  onText : list string
}.

Inductive Session : Type := Stopped | Running.

#[global] Instance Session_eq_dec : EqDecision Session.
Proof. solve_decision. Defined.

(** The plugin's fields, the part of the world it acts on, and a record
    of what an observer has seen: the notices shown, and a snapshot of
    the session state with the open connections after each step that
    assigns [this.bot] or opens or closes a connection. *)
Record Plugin : Type := {
  settings : TelegramSyncSettings;
  bot : option TelegramBot;
  polling : list nat;
  nextConnection : nat;
  vault : gset string;
  notices : list string;
  history : list (Session * list nat)
}.

(** How the collaborators behave during one call: whether closing the
    connection is rejected, whether opening one throws, and the vault's
    faults. *)
Record Environment : Type := {
  stopPollingRejects : option string;
  connectThrows : option string;
  vaultFaults : VaultFaults
}.

Definition session (p : Plugin) : Session :=
  match bot p with
  | Some _ => Running
  | None => Stopped
  end.

Definition observe (p : Plugin) : Plugin :=
  {| settings := settings p; bot := bot p; polling := polling p;
     nextConnection := nextConnection p; vault := vault p;
     notices := notices p;
     history := history p ++ [(session p, polling p)] |}.

Definition setBot (b : option TelegramBot) (p : Plugin) : Plugin :=
  observe
    {| settings := settings p; bot := b; polling := polling p;
       nextConnection := nextConnection p; vault := vault p;
       notices := notices p; history := history p |}.

Definition setPolling (l : list nat) (next : nat) (p : Plugin) : Plugin :=
  observe
    {| settings := settings p; bot := bot p; polling := l;
       nextConnection := next; vault := vault p;
       notices := notices p; history := history p |}.

Definition setVault (v : gset string) (p : Plugin) : Plugin :=
  {| settings := settings p; bot := bot p; polling := polling p;
     nextConnection := nextConnection p; vault := v;
     notices := notices p; history := history p |}.

(** [new Notice(message)] *)
Definition notice (message : string) (p : Plugin) : Plugin :=
  {| settings := settings p; bot := bot p; polling := polling p;
     nextConnection := nextConnection p; vault := vault p;
     notices := notices p ++ [message]; history := history p |}.

(** [bot.stopPolling()]: the connection is closed unless the call is
    rejected, in which case it stays as it was. *)
Definition stopPolling (env : Environment) (b : TelegramBot) (p : Plugin)
  : Result Plugin :=
  match stopPollingRejects env with
  | Some m => Throw m
  | None =>
      Ok (setPolling (List.filter (fun c => negb (c =? connection b)%nat) (polling p))
                     (nextConnection p) p)
  end.

Definition stopBot (env : Environment) (p : Plugin) : Plugin :=
  match bot p with
  | Some b =>
      match stopPolling env b p with
      | Ok p =>
          let p := setBot None p in
          notice "Telegram bot stopped" p
      | Throw m => notice ("Error stopping bot: " +:+ m) p
      end
  | None => p
  end.

(** The sources of the three trigger patterns [/\/help/], [/\/status/],
    [/\/notes/]; each matches the literal text anywhere in its subject. *)
Definition helpPattern : string := "/help".
Definition statusPattern : string := "/status".
Definition notesPattern : string := "/notes".

(** [setupBotCommands]: registers the three text listeners on the bot. *)
Definition setupBotCommands (p : Plugin) : Plugin :=
  match bot p with
  | None => p
  | Some b =>
      {| settings := settings p;
         bot := Some {| connection := connection b; token := token b;
                        onMessage := onMessage b;
                        onText := onText b
                                   ++ [helpPattern; statusPattern; notesPattern] |};
         polling := polling p; nextConnection := nextConnection p;
         vault := vault p; notices := notices p; history := history p |}
  end.

(** The [catch] block of [startBot]. *)
Definition startFailed (message : string) (p : Plugin) : Plugin :=
  let p := notice ("Failed to start Telegram bot: " +:+ message) p in
  setBot None p.

Definition startBot (env : Environment) (p : Plugin) : Plugin :=
  let p := stopBot env p in
  if negb (truthyString (botToken (settings p))) then
    notice "Telegram bot token is not set. Please configure it in settings." p
  else
    let run :=
      ensureFolderExists (vaultFaults env) (folderPath (settings p)) (vault p) in
    let p := setVault (vaultAfter run) p in
    match outcome run with
    | Throw m => startFailed m p
    | Ok _ =>
        match connectThrows env with
        | Some m => startFailed m p
        | None =>
            let c := nextConnection p in
            let p := setPolling (polling p ++ [c]) (S c) p in
            let p :=
              setBot (Some {| connection := c;
                              token := botToken (settings p);
                              onMessage := false; onText := [] |}) p in
            let p :=
              match bot p with
              | Some b =>
                  {| settings := settings p;
                     bot := Some {| connection := connection b;
                                    token := token b;
                                    onMessage := true; onText := onText b |};
                     polling := polling p;
                     nextConnection := nextConnection p; vault := vault p;
                     notices := notices p; history := history p |}
              | None => p
              end in
            let p := if supportCommands (settings p)
                     then setupBotCommands p else p in
            notice "Telegram bot started successfully" p
        end
    end.

(** [saveSettings], after the data is written: restart a running bot. *)
Definition saveSettings (env : Environment) (p : Plugin) : Plugin :=
  match bot p with
  | Some _ => startBot env p
  | None => p
  end.

(** Consecutive repetitions removed: the transitions of a sequence of
    observed session states. *)
Fixpoint transitions (l : list Session) : list Session :=
  match l with
  | a :: (b :: _) as rest =>
      if decide (a = b) then transitions rest else a :: transitions rest
  | _ => l
  end.

(** Worked examples: a plugin whose bot is running on connection 0, with
    a token or with the token cleared in the settings, and environments
    in which nothing fails or closing the connection is rejected. *)
Definition withToken (t : string) (s : TelegramSyncSettings)
  : TelegramSyncSettings :=
  {| botToken := t; folderPath := folderPath s;
     includeMetadata := includeMetadata s;
     supportCommands := supportCommands s; templates := templates s |}.

Definition runningPlugin (t : string) : Plugin := {|
  settings := withToken t DEFAULT_SETTINGS;
  bot := Some {| connection := 0; token := "123456:TOKEN";
                 onMessage := true;
                 onText := [helpPattern; statusPattern; notesPattern] |};
  polling := [0%nat];
  nextConnection := 1;
  vault := {[ "Telegram" ]};
  notices := [];
  history := []
|}.

Definition quietEnvironment : Environment :=
  {| stopPollingRejects := None; connectThrows := None;
     vaultFaults := noVaultFaults |}.

Definition closeRejected : Environment :=
  {| stopPollingRejects := Some "ETIMEDOUT"; connectThrows := None;
     vaultFaults := noVaultFaults |}.

(* ===================================================================== *)
(** * Command triggers: [setupBotCommands]                                *)
(* ===================================================================== *)

(** A text listener registered with [onText] runs for a message when the
    message has a text and the listener's pattern matches it; a pattern
    without anchors matches when its literal occurs anywhere in the text. *)
Definition fires (pattern : string) (msg : TelegramMessage) : bool :=
  match text msg with
  | Some t => truthyString t && includes pattern t
  | None => false
  end.

Definition helpText : string :=
  "Available commands:" +:+ nl
    +:+ "/help - Show this help message" +:+ nl
    +:+ "/status - Check bot status" +:+ nl
    +:+ "/notes - List recent notes".

Record TFile : Type := { path : string; basename : string }.

Fixpoint joinLines (l : list string) : string :=
  match l with
  | [] => ""
  | [a] => a
  | a :: rest => a +:+ nl +:+ joinLines rest
  end.

(** The reply of the [/notes] listener. *)
Definition notesReply (s : TelegramSyncSettings) (files : list TFile)
  : string :=
  let telegramFiles :=
    take 5 (List.filter (fun file => startsWith (folderPath s) (path file)) files) in
  if (List.length telegramFiles =? 0)%nat then "No Telegram notes found"
  else "Recent notes:" +:+ nl
         +:+ joinLines (map (fun file => "- " +:+ basename file) telegramFiles).

(** The reply a registered pattern's listener sends. *)
Definition replyOf (s : TelegramSyncSettings) (files : list TFile)
    (pattern : string) : string :=
  if String.eqb pattern helpPattern then helpText
  else if String.eqb pattern statusPattern
       then "Bot is running and connected to Obsidian"
       else notesReply s files.

(** The [sendMessage] calls a message causes: one per registered listener
    whose pattern fires, to the chat the message came from. *)
Definition commandReplies (p : Plugin) (files : list TFile)
    (msg : TelegramMessage) : list (Z * string) :=
  match bot p with
  | None => []
  | Some b =>
      map (fun pattern => (chat_id (chat msg), replyOf (settings p) files pattern))
          (List.filter (fun pattern => fires pattern msg) (onText b))
  end.

(** The three commands and the pattern each is registered with. *)
Inductive Command : Type := Help | Status | Notes.

Definition patternOf (c : Command) : string :=
  match c with
  | Help => helpPattern
  | Status => statusPattern
  | Notes => notesPattern
  end.

(** A message that carries the given text and nothing else. *)
Definition textMessage (t : string) : TelegramMessage := {|
  message_id := message_id exampleMessage;
  from := None;
  chat := chat exampleMessage;
  date := date exampleMessage;
  text := Some t;
  caption := None;
  photo := None;
  document := None;
  audio := None;
  voice := None;
  video := None;
  sticker := None;
  location := None
|}.

(** The leading token of a text, in the words of the specification: the
    characters before the first white space. *)
Fixpoint leadingToken (s : string) : string :=
  match s with
  | EmptyString => EmptyString
  | String c s' => if isSpace c then EmptyString else String c (leadingToken s')
  end.

(* ===================================================================== *)
(** * Settings: [loadSettings]                                            *)
(* ===================================================================== *)

(** The settings as the JavaScript object they are: a map from property
    names to values, the [templates] property holding an object of its
    own. *)
Inductive SettingValue : Type :=
| VString (s : string)
| VBool (b : bool)
| VObject (o : gmap string string).

Definition templatesObject (t : Templates) : gmap string string :=
  list_to_map
    [("titleTemplate", titleTemplate t);
     ("metadataTemplate", metadataTemplate t);
     ("textMessageTemplate", textMessageTemplate t);
     ("photoTemplate", photoTemplate t);
     ("documentTemplate", documentTemplate t);
     ("audioTemplate", audioTemplate t);
     ("voiceTemplate", voiceTemplate t);
     ("videoTemplate", videoTemplate t);
     ("stickerTemplate", stickerTemplate t);
     ("locationTemplate", locationTemplate t);
     ("unknownTemplate", unknownTemplate t)].

Definition settingsObject (s : TelegramSyncSettings)
  : gmap string SettingValue :=
  list_to_map
    [("botToken", VString (botToken s));
     ("folderPath", VString (folderPath s));
     ("includeMetadata", VBool (includeMetadata s));
     ("supportCommands", VBool (supportCommands s));
     ("templates", VObject (templatesObject (templates s)))].

(** [Object.assign(target, ...sources)]: the own properties of each
    source are copied over the target, later sources winning; a [null]
    source ([None]) is skipped.  Property values are copied as they are,
    nested objects included. *)
Definition ObjectAssign (target : gmap string SettingValue)
    (sources : list (option (gmap string SettingValue)))
  : gmap string SettingValue :=
  foldl (fun acc source => from_option (fun o => o ∪ acc) acc source)
        target sources.

(** [Object.assign({}, DEFAULT_SETTINGS, await this.loadData())] *)
Definition loadSettings (data : option (gmap string SettingValue))
  : gmap string SettingValue :=
  ObjectAssign ∅ [Some (settingsObject DEFAULT_SETTINGS); data].

(** [settings.templates[role]] *)
Definition templateRole (s : gmap string SettingValue) (role : string)
  : option string :=
  match s !! "templates" with
  | Some (VObject t) => t !! role
  | _ => None
  end.

(* ===================================================================== *)
(** * Event handlers and settings changes                                 *)
(* ===================================================================== *)

(** The folder names [ensureFolderExists] walks over:
    [folderPath.split('/').filter(p => p.length > 0)]. *)
Definition segments (folderPath : string) : list string :=
  List.filter (fun p => (0 <? String.length p)%nat) (splitSlash folderPath).

(** The values [currentPath] takes at the existence checks of the loop,
    one per folder name, each the previous one extended by a slash and
    the next name. *)
Fixpoint visitedPaths (folders : list string) (currentPath : string)
  : list string :=
  match folders with
  | [] => []
  | folder :: rest =>
      (currentPath +:+ folder)
        :: visitedPaths rest ((currentPath +:+ folder) +:+ "/")
  end.

(** A vault that rejects creating one folder, with the given message. *)
Definition denyCreateFolder (path message : string) : VaultFaults :=
  {| existsRejects := fun _ => None;
     createFolderRejects :=
       fun q => if String.eqb q path then Some message else None |}.

(** [vault.create(path, content)] over the notes the vault holds (a map
    from paths to contents): rejected when the vault says so, or when a
    file with that path exists. *)
Definition vaultCreate (createRejects : string -> option string)
    (files : gmap string string) (path content : string)
  : Result (gmap string string) :=
  match createRejects path with
  | Some m => Throw m
  | None =>
      match files !! path with
      | Some _ => Throw "File already exists."
      | None => Ok (<[ path := content ]> files)
      end
  end.

(** The listener [startBot] registers for the [message] event:
    [processMessage] under a [try], every error reported in a notice. *)
Definition onMessageEvent (host : Host)
    (createRejects : string -> option string)
    (p : Plugin) (files : gmap string string) (msg : TelegramMessage)
  : Plugin * gmap string string :=
  match
    JS.bind (processMessage host (settings p) msg)
            (fun note => vaultCreate createRejects files note.1 note.2)
  with
  | Ok files' => (p, files')
  | Throw m => (notice ("Error processing Telegram message: " +:+ m) p, files)
  end.









(** The bot handle and the open connections agree: a running bot's
    connection is the one open connection, a stopped bot has none. *)
Definition connected (p : Plugin) : Prop :=
  polling p = match bot p with
              | Some b => [connection b]
              | None => []
              end.

(** The value of a string of decimal digits, read after [acc]. *)
Fixpoint parseDigits (acc : Z) (s : string) : Z :=
  match s with
  | EmptyString => acc
  | String c s' => parseDigits (acc * 10 + (Z.of_N (code c) - 48)) s'
  end.

(* ===================================================================== *)
(** * Properties                                                          *)
(* ===================================================================== *)

(** ** Strings *)

#[local] Arguments String.append !s1 s2 : simpl nomatch.

Lemma append_assoc (a b c : string) : (a +:+ b) +:+ c = a +:+ b +:+ c.
Proof. induction a as [|x a IH]; simpl; [reflexivity | now rewrite IH]. Qed.

Lemma append_nil_r (a : string) : a +:+ "" = a.
Proof. induction a as [|x a IH]; simpl; [reflexivity | now rewrite IH]. Qed.

Lemma length_append (a b : string) :
  String.length (a +:+ b) = (String.length a + String.length b)%nat.
Proof. induction a as [|x a IH]; simpl; [reflexivity | now rewrite IH]. Qed.

Lemma truthyString_true (s : string) : truthyString s = true <-> s <> "".
Proof. destruct s; simpl; split; congruence. Qed.

Lemma orElse_nonempty (a b : string) : a <> "" -> orElse a b = a.
Proof. intros H. destruct a; [congruence | reflexivity]. Qed.

(** ** The marker pattern *)

Lemma spanWord_append (a : string) (x : ascii) (rest : string) :
  isWordChar x = false ->
  spanWord (a +:+ String x rest)
  = ((spanWord a).1, (spanWord a).2 +:+ String x rest).
Proof.
  intros Hx. induction a as [|c a IH]; simpl.
  - now rewrite Hx.
  - destruct (isWordChar c); [|reflexivity].
    rewrite IH. now destruct (spanWord a).
Qed.

Lemma spanWord_word (k : string) :
  allWordChars k = true -> spanWord k = (k, "").
Proof.
  induction k as [|c k IH]; simpl; [reflexivity|].
  intros [Hc Hk]%andb_true_iff. rewrite Hc, (IH Hk). reflexivity.
Qed.

(** Every marker is a match of the pattern, whatever follows it. *)
Lemma matchMarker_marker (key rest : string) :
  isIdentifier key = true ->
  matchMarker (marker key +:+ rest) = Some (key, rest).
Proof.
  unfold isIdentifier. intros [Hne Hw]%andb_true_iff.
  unfold marker. rewrite !append_assoc. simpl.
  rewrite spanWord_append by reflexivity.
  rewrite (spanWord_word _ Hw). simpl.
  destruct key; [discriminate | reflexivity].
Qed.

(** A match consumes exactly a marker. *)
Lemma matchMarker_sound (s key rest : string) :
  matchMarker s = Some (key, rest) ->
  s = marker key +:+ rest /\ isIdentifier key = true.
Proof.
  destruct s as [|c1 [|c2 s1]]; simpl; try discriminate.
  destruct (Ascii.eqb_spec c1 "{"); simpl; [|discriminate].
  destruct (Ascii.eqb_spec c2 "{"); simpl; [|discriminate].
  subst c1 c2.
  assert (Hspan : forall s w r, spanWord s = (w, r) ->
            s = w +:+ r /\ allWordChars w = true).
  { clear. induction s as [|c s IH]; simpl; intros w r.
    - intros [= <- <-]. auto.
    - destruct (isWordChar c) eqn:Hc.
      + destruct (spanWord s) as [w' r'] eqn:E. intros [= <- <-].
        destruct (IH _ _ eq_refl) as [-> Hw]. simpl. now rewrite Hc, Hw.
      + intros [= <- <-]. auto. }
  destruct (spanWord s1) as [w r] eqn:E.
  destruct (Hspan _ _ _ E) as [-> Hw].
  destruct w as [|c w]; [discriminate|].
  destruct r as [|d1 [|d2 r]]; try discriminate.
  destruct (Ascii.eqb_spec d1 "}"); simpl; [|discriminate].
  destruct (Ascii.eqb_spec d2 "}"); simpl; [|discriminate].
  subst d1 d2. intros [= <- <-]. split.
  - unfold marker. rewrite !append_assoc. reflexivity.
  - unfold isIdentifier. simpl. exact Hw.
Qed.

(** A match that starts before a marker ends before it: the text in front
    of a marker is matched as it would be on its own. *)
Lemma matchMarker_before_marker (pre key post : string) :
  pre <> "" ->
  matchMarker (pre +:+ marker key +:+ post)
  = (fun kr => (kr.1, kr.2 +:+ marker key +:+ post)) <$> matchMarker pre.
Proof.
  intros Hpre. destruct pre as [|c1 pre1]; [congruence|]. clear Hpre.
  unfold marker. rewrite !append_assoc.
  destruct pre1 as [|c2 pre2]; simpl.
  - destruct (Ascii.eqb c1 "{"); reflexivity.
  - destruct (Ascii.eqb c1 "{" && Ascii.eqb c2 "{"); [|reflexivity].
    rewrite spanWord_append by reflexivity.
    destruct (spanWord pre2) as [w r]. simpl.
    destruct w as [|c w]; [reflexivity|].
    destruct r as [|d1 [|d2 r]]; simpl; try reflexivity.
    + now rewrite andb_false_r.
    + destruct (Ascii.eqb d1 "}" && Ascii.eqb d2 "}"); reflexivity.
Qed.

(** ** The scan *)

Lemma replaceMarkers_skip (f : string -> string -> string) (a b : string) :
  replaceMarkers f (String.length a) (a +:+ b) = replaceMarkers f 0 b.
Proof. induction a as [|c a IH]; simpl; [reflexivity | exact IH]. Qed.

Lemma replaceMarkers_unfold (f : string -> string -> string) (s : string) :
  replaceMarkers f 0 s
  = match matchMarker s with
    | Some (key, rest) => f (marker key) key +:+ replaceMarkers f 0 rest
    | None =>
        match s with
        | EmptyString => EmptyString
        | String c s' => String c (replaceMarkers f 0 s')
        end
    end.
Proof.
  destruct s as [|c s']; [reflexivity|].
  cbn [replaceMarkers].
  destruct (matchMarker (String c s')) as [[key rest]|] eqn:E; [|reflexivity].
  f_equal.
  destruct (matchMarker_sound _ _ _ E) as [Hs _].
  unfold marker in Hs. rewrite !append_assoc in Hs. simpl in Hs.
  injection Hs as _ ->.
  replace (String "{" (key +:+ String "}" (String "}" rest)))
    with ((String "{" key +:+ "}}") +:+ rest)
    by (simpl; now rewrite append_assoc).
  replace (3 + String.length key)%nat
    with (String.length (String "{" key +:+ "}}"))
    by (simpl; rewrite length_append; simpl; lia).
  apply replaceMarkers_skip.
Qed.

(** The scan is compositional at every marker occurrence: the text before
    the marker and the text after it are processed on their own, and the
    marker is handed to the replacer. *)
Lemma replaceMarkers_at_marker (f : string -> string -> string)
    (pre key post : string) :
  isIdentifier key = true ->
  replaceMarkers f 0 (pre +:+ marker key +:+ post)
  = replaceMarkers f 0 pre +:+ f (marker key) key +:+ replaceMarkers f 0 post.
Proof.
  intros Hkey.
  remember (String.length pre) as n eqn:Hn.
  revert pre Hn. induction n as [n IH] using lt_wf_ind. intros pre Hn.
  destruct pre as [|c pre'].
  - change ("" +:+ marker key +:+ post) with (marker key +:+ post).
    rewrite (replaceMarkers_unfold f (marker key +:+ post)).
    rewrite matchMarker_marker by exact Hkey. reflexivity.
  - rewrite (replaceMarkers_unfold f (String c pre' +:+ _)).
    rewrite (replaceMarkers_unfold f (String c pre')).
    rewrite matchMarker_before_marker by discriminate.
    destruct (matchMarker (String c pre')) as [[k r]|] eqn:E; simpl.
    + destruct (matchMarker_sound _ _ _ E) as [Hs _].
      rewrite (IH (String.length r)); [now rewrite append_assoc | | reflexivity].
      subst n. rewrite Hs, length_append. unfold marker. simpl. lia.
    + f_equal. apply (IH (String.length pre')); [subst n; simpl; lia | reflexivity].
Qed.

(** ** Template engine *)

Lemma processTemplate_at_marker (pre key post : string)
    (V : gmap string string) :
  isIdentifier key = true ->
  processTemplate (pre +:+ marker key +:+ post) V
  = processTemplate pre V +:+ replacer V (marker key) key
      +:+ processTemplate post V.
Proof. apply replaceMarkers_at_marker. Qed.

(** A marker whose identifier is neither an entry of the mapping nor the
    name of a property inherited from [Object.prototype] is copied to the
    output unchanged, wherever it occurs. *)
Lemma processTemplate_unknown_name (pre key post : string)
    (V : gmap string string) :
  isIdentifier key = true ->
  V !! key = None ->
  ObjectPrototype key = None ->
  processTemplate (pre +:+ marker key +:+ post) V
  = processTemplate pre V +:+ marker key +:+ processTemplate post V.
Proof.
  intros Hkey HV Hproto. rewrite processTemplate_at_marker by exact Hkey.
  unfold replacer, getProperty. now rewrite HV, Hproto.
Qed.

(** Text without an opening brace is copied as it is. *)
Lemma processTemplate_plain (s : string) (V : gmap string string) :
  (forall pre post, s <> pre +:+ String "{" post) ->
  processTemplate s V = s.
Proof.
  unfold processTemplate. induction s as [|c s IH]; intros Hs; [reflexivity|].
  rewrite replaceMarkers_unfold.
  destruct (matchMarker (String c s)) as [[k r]|] eqn:E.
  - destruct (matchMarker_sound _ _ _ E) as [Hm _].
    exfalso. apply (Hs "" (String "{" (k +:+ "}}" +:+ r))).
    rewrite Hm. unfold marker. now rewrite !append_assoc.
  - f_equal. apply IH. intros pre post ->.
    apply (Hs (String c pre) post). reflexivity.
Qed.

(** C2 (the code at the failing input).  The identifier [constructor] is
    absent from the empty variable mapping, yet its marker is not left
    unchanged: the lookup [variables[key]] finds the function every object
    inherits under that name, and the marker is replaced by the text of
    that function. *)
Theorem processTemplate_inherited_name :
  (∅ : gmap string string) !! "constructor" = None
  /\ isIdentifier "constructor" = true
  /\ processTemplate "{{constructor}}" ∅
     = "function Object() { [native code] }"
  /\ processTemplate "{{constructor}}" ∅ <> "{{constructor}}".
Proof. repeat split; try reflexivity. vm_compute. discriminate. Qed.

(** C7 (counterexample).  The identifier [name] is present in the mapping
    with the empty string as its entry; the specification has the marker replaced
    by that entry, giving ["Hello !"], but the marker is left in place. *)
Lemma processTemplate_empty_entry_kept :
  ({[ "name" := "" ]} : gmap string string) !! "name" = Some ""
  /\ isIdentifier "name" = true
  /\ processTemplate "Hello {{name}}!" {[ "name" := "" ]} = "Hello {{name}}!"
  /\ processTemplate "Hello {{name}}!" {[ "name" := "" ]} <> "Hello !".
Proof. repeat split; try reflexivity. vm_compute. discriminate. Qed.

(** C7 (amended).  For every template and every variable mapping, every
    occurrence of a marker whose identifier is present in the mapping is
    replaced by the mapping's entry when that entry is not the empty
    string, and is left unchanged when the entry is the empty string; the
    text before and after the occurrence is processed independently. *)
Theorem processTemplate_present (pre key post : string)
    (V : gmap string string) (v : string) :
  isIdentifier key = true ->
  V !! key = Some v ->
  processTemplate (pre +:+ marker key +:+ post) V
  = processTemplate pre V
      +:+ (if truthyString v then v else marker key)
      +:+ processTemplate post V.
Proof.
  intros Hkey HV. rewrite processTemplate_at_marker by exact Hkey.
  unfold replacer, getProperty. rewrite HV. reflexivity.
Qed.

Lemma processTemplate_present_witness :
  isIdentifier "name" = true
  /\ ({[ "name" := "Ann" ]} : gmap string string) !! "name" = Some "Ann"
  /\ processTemplate ("Hello " +:+ marker "name" +:+ "!") {[ "name" := "Ann" ]}
     = processTemplate "Hello " {[ "name" := "Ann" ]}
         +:+ "Ann" +:+ processTemplate "!" {[ "name" := "Ann" ]}.
Proof.
  split; [reflexivity|]. split; [reflexivity|].
  apply (processTemplate_present "Hello " "name" "!" {[ "name" := "Ann" ]} "Ann");
    reflexivity.
Defined.

(** ** Classification *)

(** The content block is the template of the message's kind, filled with
    the variables of that kind. *)
(** Walk down the chain of tests on a message's content fields, closing
    each branch that is taken by computation. *)
Ltac walk_chain msg :=
  destruct (text msg) as [[|? ?]|]; cbn [from_option truthyString];
    [|reflexivity|];
  (destruct (photo msg); [reflexivity|]);
  (destruct (document msg); [reflexivity|]);
  (destruct (audio msg); [reflexivity|]);
  (destruct (voice msg); [reflexivity|]);
  (destruct (from_option truthy false (video msg)); [reflexivity|]);
  (destruct (sticker msg); [reflexivity|]);
  destruct (location msg); reflexivity.

Lemma contentBlock_classify (host : Host) (tpl : Templates)
    (msg : TelegramMessage) :
  contentBlock host tpl msg
  = processTemplate (templateOf tpl (classify msg))
                    (variablesOf host msg (classify msg)).
Proof. unfold contentBlock, classify, variablesOf. walk_chain msg. Qed.




(** ** Empty strings *)





(** ** Dates *)

Lemma DayFromYear_step (y : Z) :
  DayFromYear (y + 1) = DayFromYear y + DaysInYear y.
Proof.
  unfold DayFromYear, DaysInYear.
  destruct (Z.eqb_spec (y mod 4) 0), (Z.eqb_spec (y mod 100) 0),
    (Z.eqb_spec (y mod 400) 0); simpl; Z.div_mod_to_equations; lia.
Qed.

(** [YearFromTime t] is the year whose days include the day of [t]; as
    [DayFromYear] increases with the year, it is the largest year that
    starts on or before that day. *)
Lemma YearFromTime_spec (t : Z) :
  DayFromYear (YearFromTime t) <= Day t < DayFromYear (YearFromTime t + 1).
Proof.
  unfold YearFromTime. set (d := Day t). clearbody d.
  set (y := 1970 + d * 400 / 146097).
  destruct (Z.ltb_spec d (DayFromYear y)).
  - replace (y - 1 + 1) with y by lia. split; [|lia].
    unfold DayFromYear in *. subst y. Z.div_mod_to_equations. lia.
  - destruct (Z.leb_spec (DayFromYear (y + 1)) d); [|lia].
    split; [lia|]. unfold DayFromYear in *. subst y.
    Z.div_mod_to_equations. lia.
Qed.

Lemma DayFromYear_mono (a b : Z) : a <= b -> DayFromYear a <= DayFromYear b.
Proof. unfold DayFromYear. intros. Z.div_mod_to_equations. lia. Qed.

Lemma YearFromTime_four_digits (seconds : Z) :
  firstSecondOfYear0 <= seconds <= lastSecondOfYear9999 ->
  0 <= YearFromTime (seconds * 1000) <= 9999.
Proof.
  unfold firstSecondOfYear0, lastSecondOfYear9999. intros Hrange.
  pose proof (YearFromTime_spec (seconds * 1000)) as Hy.
  set (y := YearFromTime (seconds * 1000)) in *. clearbody y.
  assert (Hd : DayFromYear 0 <= Day (seconds * 1000) < DayFromYear 10000).
  { unfold Day, msPerDay. change (DayFromYear 0) with (-719528).
    change (DayFromYear 10000) with 2932897.
    Z.div_mod_to_equations. lia. }
  split.
  - destruct (Z.le_gt_cases 0 y) as [|Hneg]; [assumption|].
    pose proof (DayFromYear_mono (y + 1) 0 ltac:(lia)). lia.
  - destruct (Z.le_gt_cases y 9999) as [|Hbig]; [assumption|].
    pose proof (DayFromYear_mono 10000 y ltac:(lia)). lia.
Qed.

Lemma DayWithinYear_range (t : Z) :
  0 <= DayWithinYear t < 365 + InLeapYear t.
Proof.
  unfold DayWithinYear, InLeapYear.
  pose proof (YearFromTime_spec t) as Hy.
  rewrite DayFromYear_step in Hy.
  assert (Hl : DaysInYear (YearFromTime t) = 365
               \/ DaysInYear (YearFromTime t) = 366).
  { unfold DaysInYear.
    destruct (negb _); [auto|]. destruct (negb _); [auto|].
    destruct (negb _); auto. }
  destruct Hl as [Hl | Hl]; rewrite Hl in *;
    [change (365 =? 366) with false | change (366 =? 366) with true];
    cbv iota; lia.
Qed.

Lemma MonthFromTime_range (t : Z) : 1 <= MonthFromTime t + 1 <= 12.
Proof.
  unfold MonthFromTime.
  repeat match goal with
    | |- context [if ?b then _ else _] => destruct b
    end; lia.
Qed.

Lemma DateFromTime_range (t : Z) : 1 <= DateFromTime t <= 31.
Proof.
  pose proof (DayWithinYear_range t) as Hd.
  assert (Hl : InLeapYear t = 0 \/ InLeapYear t = 1).
  { unfold InLeapYear. destruct (_ =? _); auto. }
  unfold DateFromTime, MonthFromTime.
  set (d := DayWithinYear t) in *. set (l := InLeapYear t) in *.
  clearbody d l.
  repeat match goal with
    | |- context [if ?a <? ?b then _ else _] => destruct (Z.ltb_spec a b)
    end; cbn match; lia.
Qed.

Lemma time_fields_range (t : Z) :
  0 <= HourFromTime t <= 23 /\ 0 <= MinFromTime t <= 59
  /\ 0 <= SecFromTime t <= 59.
Proof.
  unfold HourFromTime, MinFromTime, SecFromTime.
  repeat split; Z.div_mod_to_equations; lia.
Qed.

(** ** The time stamp of a file name *)

Lemma padShape_upto (width : nat) (bound : Z) :
  forallb (fun i => padShape width (Z.of_nat i)) (seq 0 (Z.to_nat bound))
  = true ->
  forall n, 0 <= n < bound -> padShape width n = true.
Proof.
  intros Hall n Hn. rewrite forallb_forall in Hall.
  specialize (Hall (Z.to_nat n)). rewrite Z2Nat.id in Hall by lia.
  apply Hall, in_seq. lia.
Qed.

Lemma pad4_shape (n : Z) : 0 <= n <= 9999 -> padShape 4 n = true.
Proof.
  intros Hn. apply (padShape_upto 4 10000); [vm_compute; reflexivity | lia].
Qed.

Lemma pad2_shape (n : Z) : 0 <= n <= 99 -> padShape 2 n = true.
Proof.
  intros Hn. apply (padShape_upto 2 100); [vm_compute; reflexivity | lia].
Qed.

Lemma digit_kept (c : ascii) :
  isDigit c = true -> (Ascii.eqb c ":" || Ascii.eqb c ".")%bool = false.
Proof.
  destruct c as [[] [] [] [] [] [] [] []]; try reflexivity; discriminate.
Qed.

Lemma four_digits (s : string) :
  (String.length s =? 4)%nat && allDigits s = true ->
  exists a b c d,
    s = String a (String b (String c (String d "")))
    /\ isDigit a = true /\ isDigit b = true
    /\ isDigit c = true /\ isDigit d = true.
Proof.
  destruct s as [|a [|b [|c [|d [|e s]]]]]; try discriminate.
  cbn [String.length Nat.eqb allDigits andb].
  rewrite !andb_true_iff. intros (Ha & Hb & Hc & Hd & _).
  exists a, b, c, d. auto.
Qed.

Lemma two_digits (s : string) :
  (String.length s =? 2)%nat && allDigits s = true ->
  exists a b, s = String a (String b "")
              /\ isDigit a = true /\ isDigit b = true.
Proof.
  destruct s as [|a [|b [|c s]]]; try discriminate.
  cbn [String.length Nat.eqb allDigits andb].
  rewrite !andb_true_iff. intros (Ha & Hb & _).
  exists a, b. auto.
Qed.

(** With a year from 0000 to 9999, the first 19 characters of the ISO
    rendering, colons and dots replaced, are [YYYY-MM-DDTHH-MM-SS]. *)
Lemma stamp_of_iso (t : Z) :
  0 <= YearFromTime t <= 9999 ->
  sliceTo 19 (replaceColonDot (isoOfTime t)) = utcStamp t.
Proof.
  intros Hy. unfold isoOfTime, utcStamp, isoYear.
  replace ((0 <=? YearFromTime t) && (YearFromTime t <=? 9999)) with true
    by (symmetry; apply andb_true_iff; split; apply Z.leb_le; lia).
  pose proof (time_fields_range t) as (Hh & Hm & Hs).
  destruct (four_digits _ (pad4_shape _ Hy)) as (y1 & y2 & y3 & y4 & -> & ? & ? & ? & ?).
  destruct (two_digits (pad 2 (MonthFromTime t + 1)))
    as (m1 & m2 & -> & ? & ?);
    [apply pad2_shape; pose proof (MonthFromTime_range t); lia|].
  destruct (two_digits (pad 2 (DateFromTime t))) as (d1 & d2 & -> & ? & ?);
    [apply pad2_shape; pose proof (DateFromTime_range t); lia|].
  destruct (two_digits (pad 2 (HourFromTime t))) as (h1 & h2 & -> & ? & ?);
    [apply pad2_shape; lia|].
  destruct (two_digits (pad 2 (MinFromTime t))) as (n1 & n2 & -> & ? & ?);
    [apply pad2_shape; lia|].
  destruct (two_digits (pad 2 (SecFromTime t))) as (s1 & s2 & -> & ? & ?);
    [apply pad2_shape; lia|].
  generalize (pad 3 (msFromTime t)). intros millis.
  cbn [String.append replaceColonDot sliceTo].
  repeat match goal with
    | H : isDigit ?c = true |- _ => rewrite (digit_kept c H); clear H
    end.
  reflexivity.
Qed.

Lemma newDate_four_digits (seconds : Z) :
  firstSecondOfYear0 <= seconds <= lastSecondOfYear9999 ->
  newDate (seconds * 1000) = Some (seconds * 1000).
Proof.
  unfold firstSecondOfYear0, lastSecondOfYear9999, newDate, maxTime.
  intros Hs. destruct (Z.leb_spec (Z.abs (seconds * 1000)) 8640000000000000);
    [reflexivity | lia].
Qed.

(** Whatever the year, a message with a valid date is rendered to a file
    whose name carries the first 19 characters of the ISO rendering, colons
    and dots replaced; a message whose date is not valid is not rendered:
    [toISOString] throws. *)
Lemma processMessage_valid_date (host : Host)
    (settings : TelegramSyncSettings) (msg : TelegramMessage) :
  Z.abs (date msg * 1000) <= maxTime ->
  exists body,
    processMessage host settings msg
    = Ok (folderPath settings +:+ "/"
            +:+ sliceTo 19 (replaceColonDot (isoOfTime (date msg * 1000)))
            +:+ "-" +:+ intToString (message_id msg) +:+ ".md",
          body).
Proof.
  intros Hvalid. unfold processMessage, newDate.
  destruct (Z.leb_spec (Z.abs (date msg * 1000)) maxTime); [|lia].
  cbn [toISOString JS.bind]. eexists. reflexivity.
Qed.

Lemma processMessage_invalid_date (host : Host)
    (settings : TelegramSyncSettings) (msg : TelegramMessage) :
  maxTime < Z.abs (date msg * 1000) ->
  processMessage host settings msg = Throw "Invalid time value".
Proof.
  intros Hinvalid. unfold processMessage, newDate.
  destruct (Z.leb_spec (Z.abs (date msg * 1000)) maxTime); [lia|].
  reflexivity.
Qed.

(** C3 (counterexample).  The example message is rendered to the stated
    body, but its path carries the time 16-00-00, not 16-40-00:
    1710000000 seconds is a whole number of hours (475000) after the
    epoch.  And the first 19 characters have the form
    YYYY-MM-DDTHH-MM-SS only while the year has four digits: one second
    after the year 9999 the stamp is [+010000-01-01T00-00]. *)
Lemma example_path_is_on_the_hour :
  processMessage exampleHost exampleSettings exampleMessage
  = Ok ("Telegram/2024-03-09T16-00-00-42.md",
        "## Message" +:+ nl +:+ nl +:+ "hello")
  /\ processMessage exampleHost exampleSettings exampleMessage
     <> Ok ("Telegram/2024-03-09T16-40-00-42.md",
            "## Message" +:+ nl +:+ nl +:+ "hello")
  /\ 1710000000 = 475000 * 3600
  /\ JS.bind (toISOString (newDate ((lastSecondOfYear9999 + 1) * 1000)))
       (fun iso => Ok (sliceTo 19 (replaceColonDot iso)))
     = Ok "+010000-01-01T00-00".
Proof.
  split; [vm_compute; reflexivity|]. split; [vm_compute; discriminate|].
  split; [reflexivity | vm_compute; reflexivity].
Qed.

(** C3 (amended).  For every message whose date lies within the years
    0000 to 9999, rendering succeeds and the file path is the folder
    path, a slash, the time stamp, a dash, the message id and [.md],
    where the time stamp is the first 19 characters of the UTC ISO-8601
    rendering of [date * 1000] milliseconds with every colon and dot
    replaced by a dash, and has the form YYYY-MM-DDTHH-MM-SS.  The example
    message, with the default templates and without metadata, yields the
    body ["## Message\n\nhello"] and the path
    ["Telegram/2024-03-09T16-00-00-42.md"]. *)
Theorem processMessage_path (host : Host) (settings : TelegramSyncSettings)
    (msg : TelegramMessage) :
  firstSecondOfYear0 <= date msg <= lastSecondOfYear9999 ->
  (exists iso body,
      toISOString (newDate (date msg * 1000)) = Ok iso
      /\ sliceTo 19 (replaceColonDot iso) = utcStamp (date msg * 1000)
      /\ String.length (utcStamp (date msg * 1000)) = 19%nat
      /\ processMessage host settings msg
         = Ok (folderPath settings +:+ "/" +:+ utcStamp (date msg * 1000)
                 +:+ "-" +:+ intToString (message_id msg) +:+ ".md",
               body))
  /\ processMessage host exampleSettings exampleMessage
     = Ok ("Telegram/2024-03-09T16-00-00-42.md",
           "## Message" +:+ nl +:+ nl +:+ "hello").
Proof.
  intros Hrange. split; [|vm_compute; reflexivity].
  pose proof (YearFromTime_four_digits _ Hrange) as Hy.
  pose proof (stamp_of_iso _ Hy) as Hstamp.
  exists (isoOfTime (date msg * 1000)).
  unfold processMessage. rewrite (newDate_four_digits _ Hrange).
  cbn [toISOString JS.bind]. rewrite Hstamp.
  eexists. split; [reflexivity|]. split; [reflexivity|].
  split; [|reflexivity].
  rewrite <- Hstamp. clear Hstamp. unfold isoOfTime, isoYear.
  replace ((0 <=? YearFromTime (date msg * 1000))
           && (YearFromTime (date msg * 1000) <=? 9999)) with true
    by (symmetry; apply andb_true_iff; split; apply Z.leb_le; lia).
  destruct (four_digits _ (pad4_shape _ Hy)) as (y1 & y2 & y3 & y4 & -> & _).
  destruct (two_digits (pad 2 (MonthFromTime (date msg * 1000) + 1)))
    as (m1 & m2 & -> & _);
    [apply pad2_shape; pose proof (MonthFromTime_range (date msg * 1000)); lia|].
  destruct (two_digits (pad 2 (DateFromTime (date msg * 1000))))
    as (d1 & d2 & -> & _);
    [apply pad2_shape; pose proof (DateFromTime_range (date msg * 1000)); lia|].
  pose proof (time_fields_range (date msg * 1000)) as (Hh & Hm & Hs).
  destruct (two_digits (pad 2 (HourFromTime (date msg * 1000))))
    as (h1 & h2 & -> & _); [apply pad2_shape; lia|].
  destruct (two_digits (pad 2 (MinFromTime (date msg * 1000))))
    as (n1 & n2 & -> & _); [apply pad2_shape; lia|].
  destruct (two_digits (pad 2 (SecFromTime (date msg * 1000))))
    as (s1 & s2 & -> & _); [apply pad2_shape; lia|].
  reflexivity.
Qed.

Lemma processMessage_path_witness :
  firstSecondOfYear0 <= date exampleMessage <= lastSecondOfYear9999
  /\ (exists iso body,
         toISOString (newDate (date exampleMessage * 1000)) = Ok iso
         /\ sliceTo 19 (replaceColonDot iso)
            = utcStamp (date exampleMessage * 1000)
         /\ String.length (utcStamp (date exampleMessage * 1000)) = 19%nat
         /\ processMessage exampleHost exampleSettings exampleMessage
            = Ok (folderPath exampleSettings +:+ "/"
                    +:+ utcStamp (date exampleMessage * 1000)
                    +:+ "-" +:+ intToString (message_id exampleMessage)
                    +:+ ".md",
                  body)).
Proof.
  assert (Hrange : firstSecondOfYear0 <= date exampleMessage
                   <= lastSecondOfYear9999)
    by (vm_compute; split; discriminate).
  split; [exact Hrange|].
  exact (proj1 (processMessage_path exampleHost exampleSettings
                  exampleMessage Hrange)).
Defined.

(** ** Folder provisioning *)

Lemma created_outcome (path : string) (p : Provisioned) :
  outcome (created path p) = outcome p.
Proof. reflexivity. Qed.

(** A run never removes a folder. *)
Lemma ensureFolders_grows (faults : VaultFaults) (folders : list string) :
  forall (currentPath : string) (v : gset string),
    v ⊆ vaultAfter (ensureFolders faults folders currentPath v).
Proof.
  induction folders as [|folder rest IH]; intros cur v; cbn [ensureFolders].
  - reflexivity.
  - unfold adapterExists, createFolder.
    destruct (existsRejects faults (cur +:+ folder)); [reflexivity|].
    destruct (bool_decide (cur +:+ folder ∈ v)); [apply IH|].
    destruct (createFolderRejects faults (cur +:+ folder)); [reflexivity|].
    cbn [vaultAfter created]. etrans; [|apply IH]. set_solver.
Qed.

(** After a run that succeeded, a run over any vault that holds at least
    the folders the first one left, and whose [exists] answers wherever it
    answered before, creates nothing and succeeds. *)
Lemma ensureFolders_again (faults faults' : VaultFaults)
    (folders : list string) :
  (forall path, existsRejects faults path = None ->
                existsRejects faults' path = None) ->
  forall (currentPath : string) (v w : gset string),
    outcome (ensureFolders faults folders currentPath v) = Ok tt ->
    vaultAfter (ensureFolders faults folders currentPath v) ⊆ w ->
    ensureFolders faults' folders currentPath w
    = {| vaultAfter := w; creationCalls := []; outcome := Ok tt |}.
Proof.
  intros Hexists.
  induction folders as [|folder rest IH]; intros cur v w; cbn [ensureFolders].
  - reflexivity.
  - unfold adapterExists, createFolder.
    destruct (existsRejects faults (cur +:+ folder)) eqn:Hcheck;
      [discriminate|].
    rewrite (Hexists _ Hcheck).
    destruct (bool_decide_reflect (cur +:+ folder ∈ v)) as [Hin|Hout].
    + intros Hok Hsub.
      pose proof (ensureFolders_grows faults rest ((cur +:+ folder) +:+ "/") v).
      rewrite bool_decide_eq_true_2 by set_solver.
      now apply (IH _ v).
    + destruct (createFolderRejects faults (cur +:+ folder)); [discriminate|].
      rewrite created_outcome. cbn [vaultAfter created]. intros Hok Hsub.
      pose proof (ensureFolders_grows faults rest ((cur +:+ folder) +:+ "/")
                    ({[cur +:+ folder]} ∪ v)).
      rewrite bool_decide_eq_true_2 by set_solver.
      now apply (IH _ ({[cur +:+ folder]} ∪ v)).
Qed.

(** C6.  When [ensureFolderExists] succeeds on a path, calling it again on
    the same path, over the vault the first call left and with [exists]
    answering wherever it answered during the first call, calls
    [createFolder] not once (whatever [createFolder] would do), succeeds,
    and leaves the vault as it is. *)
Theorem ensureFolderExists_idempotent (faults faults' : VaultFaults)
    (folderPath : string) (v : gset string) :
  outcome (ensureFolderExists faults folderPath v) = Ok tt ->
  (forall path, existsRejects faults path = None ->
                existsRejects faults' path = None) ->
  ensureFolderExists faults' folderPath
    (vaultAfter (ensureFolderExists faults folderPath v))
  = {| vaultAfter := vaultAfter (ensureFolderExists faults folderPath v);
       creationCalls := [];
       outcome := Ok tt |}.
Proof.
  unfold ensureFolderExists. intros Hok Hexists.
  now apply (ensureFolders_again faults faults' _ Hexists "" v).
Qed.

Lemma ensureFolderExists_idempotent_witness :
  creationCalls (ensureFolderExists noVaultFaults "/Telegram//inbox/" ∅)
  = ["Telegram"; "Telegram/inbox"]
  /\ outcome (ensureFolderExists noVaultFaults "/Telegram//inbox/" ∅) = Ok tt
  /\ ensureFolderExists noVaultFaults "/Telegram//inbox/"
       (vaultAfter (ensureFolderExists noVaultFaults "/Telegram//inbox/" ∅))
     = {| vaultAfter :=
            vaultAfter (ensureFolderExists noVaultFaults "/Telegram//inbox/" ∅);
          creationCalls := [];
          outcome := Ok tt |}.
Proof.
  split; [vm_compute; reflexivity|]. split; [vm_compute; reflexivity|].
  apply (ensureFolderExists_idempotent noVaultFaults noVaultFaults
           "/Telegram//inbox/" ∅).
  - vm_compute. reflexivity.
  - intros path Hpath. exact Hpath.
Defined.

(** ** Bot lifecycle *)

Lemma stopBot_stopped (env : Environment) (p : Plugin) :
  bot p = None -> stopBot env p = p.
Proof. unfold stopBot. now intros ->. Qed.

(** A close that succeeds ends in [Stopped], with the connection gone. *)
Lemma stopBot_closed (env : Environment) (p : Plugin) (b : TelegramBot) :
  bot p = Some b ->
  stopPollingRejects env = None ->
  session (stopBot env p) = Stopped
  /\ polling (stopBot env p)
     = List.filter (fun c => negb (c =? connection b)%nat) (polling p)
  /\ history (stopBot env p)
     = history p
         ++ [(Running, List.filter (fun c => negb (c =? connection b)%nat) (polling p));
             (Stopped, List.filter (fun c => negb (c =? connection b)%nat) (polling p))].
Proof.
  intros Hb Hclose. unfold stopBot, stopPolling. rewrite Hb, Hclose.
  cbn. unfold session. rewrite Hb. cbn. now rewrite <- app_assoc.
Qed.

(** A close that is rejected is reported and nothing else happens: the
    plugin keeps its bot. *)
Lemma stopBot_rejected (env : Environment) (p : Plugin) (b : TelegramBot)
    (m : string) :
  bot p = Some b ->
  stopPollingRejects env = Some m ->
  stopBot env p = notice ("Error stopping bot: " +:+ m) p.
Proof.
  intros Hb Hclose. unfold stopBot, stopPolling. now rewrite Hb, Hclose.
Qed.

(** C4 (the code at the failing input).  [stopBot] is called while the bot
    runs and [stopPolling] is rejected: the failure is reported, but
    [this.bot] is not cleared, so the session is still [Running] after the
    call. *)
Theorem stopBot_close_failure_stays_running :
  session (runningPlugin "123456:TOKEN") = Running
  /\ session (stopBot closeRejected (runningPlugin "123456:TOKEN")) = Running
  /\ bot (stopBot closeRejected (runningPlugin "123456:TOKEN"))
     = bot (runningPlugin "123456:TOKEN")
  /\ notices (stopBot closeRejected (runningPlugin "123456:TOKEN"))
     = ["Error stopping bot: ETIMEDOUT"]
  /\ history (stopBot closeRejected (runningPlugin "123456:TOKEN")) = [].
Proof. repeat split. Qed.

(** C5 (counterexample).  [startBot] is called while the bot runs and the
    token has been cleared in the settings: the prior connection is
    closed and none is opened, so afterwards there is no active
    connection and the session has gone from [Running] to [Stopped]
    only. *)
Lemma startBot_without_token_ends_stopped :
  session (runningPlugin "") = Running
  /\ polling (runningPlugin "") = [0%nat]
  /\ session (startBot quietEnvironment (runningPlugin "")) = Stopped
  /\ polling (startBot quietEnvironment (runningPlugin "")) = []
  /\ transitions
       (Running
          :: map fst (history (startBot quietEnvironment (runningPlugin ""))))
     = [Running; Stopped].
Proof. repeat split. Qed.

(** C5 (amended).  [startBot] is called while the bot runs on its one
    connection, and closing that connection succeeds.  Then the prior
    connection is closed first and at no point of the call are two
    connections open.  If the token is not empty, the folder is
    provisioned and the new connection opens, there is exactly one active
    connection afterwards, the new one, and the session has gone
    Running, Stopped, Running; otherwise no connection is active
    afterwards and the session has gone Running, Stopped. *)
Theorem startBot_while_running (env : Environment) (p : Plugin)
    (b : TelegramBot) :
  bot p = Some b ->
  polling p = [connection b] ->
  stopPollingRejects env = None ->
  exists seen,
    history (startBot env p) = history p ++ seen
    /\ Forall (fun snapshot => (List.length snapshot.2 <= 1)%nat) seen
    /\ head seen = Some (Running, [])
    /\ (if truthyString (botToken (settings p))
           && isOk (outcome (ensureFolderExists (vaultFaults env)
                                (folderPath (settings p)) (vault p)))
           && bool_decide (connectThrows env = None)
        then session (startBot env p) = Running
             /\ polling (startBot env p) = [nextConnection p]
             /\ connection <$> bot (startBot env p) = Some (nextConnection p)
             /\ transitions (Running :: map fst seen)
                = [Running; Stopped; Running]
        else session (startBot env p) = Stopped
             /\ polling (startBot env p) = []
             /\ transitions (Running :: map fst seen) = [Running; Stopped]).
Proof.
  intros Hb Hp Hclose.
  destruct p as [s bt pl nx v ns h]. cbn in Hb, Hp. subst bt pl.
  cbn [settings vault nextConnection history].
  unfold startBot, stopBot, stopPolling.
  cbn [bot polling]. rewrite Hclose.
  cbn [List.filter]. rewrite Nat.eqb_refl.
  cbn -[ensureFolderExists truthyString].
  destruct (truthyString (botToken s)); cbn [negb andb].
  2:{ exists [(Running, []); (Stopped, [])].
      cbn. rewrite <- app_assoc. repeat split; auto. }
  destruct (ensureFolderExists (vaultFaults env) (folderPath s) v)
    as [va calls [[]|m]]; cbn [outcome vaultAfter isOk andb].
  2:{ exists [(Running, []); (Stopped, []); (Stopped, [])].
      cbn. rewrite <- !app_assoc. repeat split; auto. }
  destruct (connectThrows env) as [m|].
  { rewrite bool_decide_eq_false_2 by discriminate.
    exists [(Running, []); (Stopped, []); (Stopped, [])].
    cbn. rewrite <- !app_assoc. repeat split; auto. }
  rewrite bool_decide_eq_true_2 by reflexivity.
  exists [(Running, []); (Stopped, []); (Stopped, [nx]); (Running, [nx])].
  destruct (supportCommands s); cbn; rewrite <- !app_assoc;
    repeat split; auto.
Qed.

Lemma startBot_while_running_witness :
  bot (runningPlugin "123456:TOKEN")
  = Some {| connection := 0; token := "123456:TOKEN"; onMessage := true;
            onText := [helpPattern; statusPattern; notesPattern] |}
  /\ polling (runningPlugin "123456:TOKEN") = [0%nat]
  /\ stopPollingRejects quietEnvironment = None
  /\ session (startBot quietEnvironment (runningPlugin "123456:TOKEN"))
     = Running
  /\ polling (startBot quietEnvironment (runningPlugin "123456:TOKEN"))
     = [1%nat]
  /\ exists seen,
       history (startBot quietEnvironment (runningPlugin "123456:TOKEN"))
       = history (runningPlugin "123456:TOKEN") ++ seen
       /\ Forall (fun snapshot => (List.length snapshot.2 <= 1)%nat) seen
       /\ transitions (Running :: map fst seen) = [Running; Stopped; Running].
Proof.
  split; [reflexivity|]. split; [reflexivity|]. split; [reflexivity|].
  split; [reflexivity|]. split; [reflexivity|].
  destruct (startBot_while_running quietEnvironment
              (runningPlugin "123456:TOKEN") _ eq_refl eq_refl eq_refl)
    as (seen & Hseen & Hone & _ & Hcase).
  exists seen. split; [exact Hseen|]. split; [exact Hone|].
  exact (proj2 (proj2 (proj2 Hcase))).
Defined.

(** Saving the settings while the bot is stopped opens no connection. *)
Lemma saveSettings_stopped (env : Environment) (p : Plugin) :
  bot p = None -> saveSettings env p = p.
Proof. unfold saveSettings. now intros ->. Qed.

(** ** Command triggers *)

(** Every reply goes to the chat the message came from. *)
Lemma commandReplies_chat (p : Plugin) (files : list TFile)
    (msg : TelegramMessage) (chatId : Z) (reply : string) :
  In (chatId, reply) (commandReplies p files msg) ->
  chatId = chat_id (chat msg).
Proof.
  unfold commandReplies. destruct (bot p); [|intros []].
  rewrite in_map_iff. now intros (pattern & [= <- _] & _).
Qed.

Lemma startsWith_prefix (p s : string) :
  startsWith p s = true <-> exists post, s = p +:+ post.
Proof.
  revert s. induction p as [|a p IH]; intros s; cbn [startsWith].
  - split; [intros _; now exists s | reflexivity].
  - destruct s as [|b s].
    + split; [discriminate | intros [post Hpost]; discriminate].
    + rewrite andb_true_iff, IH. split.
      * intros [Hab [post ->]]. apply Ascii.eqb_eq in Hab. subst b.
        now exists post.
      * intros [post Hpost]. cbn in Hpost. injection Hpost as -> ->.
        split; [apply Ascii.eqb_refl | now exists post].
Qed.

Lemma includes_occurrence (p s : string) :
  includes p s = true <-> exists pre post, s = pre +:+ p +:+ post.
Proof.
  induction s as [|c s IH]; cbn [includes]; rewrite orb_true_iff.
  - rewrite startsWith_prefix. split.
    + intros [[post ->]|]; [|discriminate]. now exists "", post.
    + intros (pre & post & Heq). left. destruct pre; [|discriminate].
      now exists post.
  - rewrite startsWith_prefix, IH. split.
    + intros [[post ->] | (pre & post & ->)].
      * now exists "", post.
      * now exists (String c pre), post.
    + intros (pre & post & Heq). destruct pre as [|c' pre].
      * left. now exists post.
      * right. cbn in Heq. injection Heq as -> ->. now exists pre, post.
Qed.

Lemma leadingToken_prefix (t : string) :
  exists post, t = leadingToken t +:+ post.
Proof.
  induction t as [|c t [post IH]]; cbn [leadingToken]; [now exists ""|].
  destruct (isSpace c); [now exists (String c t)|].
  exists post. cbn. now rewrite <- IH.
Qed.

(** C9 (counterexample).  The [/help] listener fires on a text whose
    leading token is another word and on a text whose leading token only
    starts with the command; the same holds for the other two commands. *)
Lemma command_fires_away_from_leading_token :
  leadingToken "say /help now" = "say"
  /\ fires (patternOf Help) (textMessage "say /help now") = true
  /\ leadingToken "/helpme" = "/helpme"
  /\ fires (patternOf Help) (textMessage "/helpme") = true
  /\ fires (patternOf Status) (textMessage "what is the /status?") = true
  /\ fires (patternOf Notes) (textMessage "/notes2") = true.
Proof. repeat split. Qed.

(** C9 (amended).  Each of the three command triggers fires exactly when
    the message has a text that contains the command string somewhere,
    character for character (so the match is case-sensitive); in
    particular it fires whenever the leading token of the text equals the
    command string. *)
Theorem command_fires_iff_text_contains (c : Command)
    (msg : TelegramMessage) :
  (fires (patternOf c) msg = true
   <-> exists t pre post,
         text msg = Some t /\ t = pre +:+ patternOf c +:+ post)
  /\ (forall t, text msg = Some t -> leadingToken t = patternOf c ->
                fires (patternOf c) msg = true).
Proof.
  assert (Hiff : fires (patternOf c) msg = true
                 <-> exists t pre post,
                       text msg = Some t /\ t = pre +:+ patternOf c +:+ post).
  { unfold fires. destruct (text msg) as [t|].
    - rewrite andb_true_iff, includes_occurrence. split.
      + intros [_ (pre & post & ->)]. eauto.
      + intros (t' & pre & post & [= <-] & ->). split; [|eauto].
        destruct pre; [destruct c|]; reflexivity.
    - split; [discriminate | intros (t & _ & _ & Ht & _); discriminate]. }
  split; [exact Hiff|].
  intros t Ht Hlead. apply Hiff.
  destruct (leadingToken_prefix t) as [post Hpost].
  exists t, "", post. rewrite <- Hlead. auto.
Qed.

(** ** Settings *)

Lemma loadSettings_lookup (data : option (gmap string SettingValue))
    (key : string) :
  loadSettings data !! key
  = match data ≫= (fun o => o !! key) with
    | Some v => Some v
    | None => settingsObject DEFAULT_SETTINGS !! key
    end.
Proof.
  unfold loadSettings, ObjectAssign. cbn [foldl from_option].
  rewrite (right_id_L ∅ (∪)).
  destruct data as [o|]; cbn [from_option mbind option_bind]; [|reflexivity].
  rewrite lookup_union. now destruct (o !! key), (_ !! key).
Qed.

(** C8 (counterexample).  The stored data holds a TemplateSet with the
    title role only.  The default for the text role exists, yet after
    loading the text role is missing: the stored TemplateSet replaces
    the default one as a whole. *)
Lemma loadSettings_keeps_stored_templates_whole :
  templateRole (settingsObject DEFAULT_SETTINGS) "textMessageTemplate"
  = Some (textMessageTemplate DEFAULT_TEMPLATES)
  /\ templateRole
       (loadSettings
          (Some {[ "templates" := VObject {[ "titleTemplate" := "# Mine" ]} ]}))
       "titleTemplate"
     = Some "# Mine"
  /\ templateRole
       (loadSettings
          (Some {[ "templates" := VObject {[ "titleTemplate" := "# Mine" ]} ]}))
       "textMessageTemplate"
     = None.
Proof. repeat split. Qed.

(** C8 (amended).  Loading merges the stored data over the defaults one
    settings field at a time: a field absent from the stored data (or
    every field, when nothing is stored) receives its default value, and
    a field present in the stored data keeps the stored value.  The
    TemplateSet is one such field: when the stored data has one, it is
    taken as it is, and when it has none, every role has its default. *)
Theorem loadSettings_merges_fields (data : option (gmap string SettingValue))
    (key : string) :
  (loadSettings data !! key
   = match data ≫= (fun o => o !! key) with
     | Some v => Some v
     | None => settingsObject DEFAULT_SETTINGS !! key
     end)
  /\ (forall t role,
        data ≫= (fun o => o !! "templates") = Some (VObject t) ->
        templateRole (loadSettings data) role = t !! role)
  /\ (forall role,
        data ≫= (fun o => o !! "templates") = None ->
        templateRole (loadSettings data) role
        = templateRole (settingsObject DEFAULT_SETTINGS) role).
Proof.
  split; [apply loadSettings_lookup|]. split.
  - intros t role Ht. unfold templateRole at 1.
    now rewrite loadSettings_lookup, Ht.
  - intros role Hnone. unfold templateRole at 1.
    now rewrite loadSettings_lookup, Hnone.
Qed.

(* ===================================================================== *)
(** * Further properties of the plugin                                    *)
(* ===================================================================== *)

(** ** Templates without markers, and with one *)

Lemma no_brace_no_occurrence (s : string) :
  includes "{" s = false -> forall pre post, s <> pre +:+ String "{" post.
Proof.
  intros Hs pre post Heq.
  assert (includes "{" s = true) as Hin; [|congruence].
  apply includes_occurrence. exists pre, post. exact Heq.
Qed.

Lemma processTemplate_literal (template : string) (V : gmap string string) :
  includes "{" template = false ->
  processTemplate template V = template.
Proof.
  intros Hs. apply processTemplate_plain. now apply no_brace_no_occurrence.
Qed.

(** A marker with a non-empty entry is replaced by the entry, the text
    around it being processed on its own. *)
Lemma processTemplate_entry (pre key post : string) (V : gmap string string)
    (v : string) :
  isIdentifier key = true ->
  V !! key = Some v ->
  v <> "" ->
  processTemplate (pre +:+ marker key +:+ post) V
  = processTemplate pre V +:+ v +:+ processTemplate post V.
Proof.
  intros Hkey HV Hv. rewrite processTemplate_at_marker by exact Hkey.
  unfold replacer, getProperty. rewrite HV. cbn [orDefault].
  now rewrite orElse_nonempty.
Qed.

Lemma processTemplate_around_marker (pre key post : string)
    (V : gmap string string) (v : string) :
  includes "{" pre = false ->
  includes "{" post = false ->
  isIdentifier key = true ->
  V !! key = Some v ->
  v <> "" ->
  processTemplate (pre +:+ marker key +:+ post) V = pre +:+ v +:+ post.
Proof.
  intros Hpre Hpost Hkey HV Hv.
  rewrite (processTemplate_entry pre key post V v Hkey HV Hv).
  now rewrite !processTemplate_literal.
Qed.

(** ** Decimal renderings *)

Lemma parseDigits_append (a b : string) (acc : Z) :
  parseDigits acc (a +:+ b) = parseDigits (parseDigits acc a) b.
Proof. revert acc. induction a as [|c a IH]; intros acc; simpl; auto. Qed.

Lemma allDigits_append (a b : string) :
  allDigits (a +:+ b) = allDigits a && allDigits b.
Proof.
  induction a as [|c a IH]; simpl; [reflexivity|].
  now rewrite IH, andb_assoc.
Qed.

Lemma digitChar_value (d : Z) :
  0 <= d <= 9 ->
  Z.of_N (code (digitChar d)) - 48 = d /\ isDigit (digitChar d) = true.
Proof.
  intros Hd.
  assert (d = 0 \/ d = 1 \/ d = 2 \/ d = 3 \/ d = 4 \/ d = 5 \/ d = 6
          \/ d = 7 \/ d = 8 \/ d = 9) as Hcases by lia.
  repeat destruct Hcases as [-> | Hcases]; try subst d; split; reflexivity.
Qed.

(** The digits written for [n] read back as [n]. *)
Lemma digitsFrom_step (fuel : nat) (n : Z) (acc : string) :
  digitsFrom (S fuel) n acc
  = if n / 10 =? 0 then String (digitChar (n mod 10)) acc
    else digitsFrom fuel (n / 10) (String (digitChar (n mod 10)) acc).
Proof. reflexivity. Qed.

Lemma digitsFrom_digits (fuel : nat) :
  forall (n : Z) (acc : string),
    0 <= n < 10 ^ Z.of_nat (S fuel) ->
    exists ds,
      digitsFrom (S fuel) n acc = ds +:+ acc
      /\ parseDigits 0 ds = n /\ allDigits ds = true /\ ds <> "".
Proof.
  induction fuel as [|fuel IH]; intros n acc Hn;
    rewrite Nat2Z.inj_succ, Z.pow_succ_r in Hn by lia;
    rewrite digitsFrom_step;
    (destruct (digitChar_value (n mod 10)) as [Hval Hdig];
      [Z.div_mod_to_equations; lia|]);
    destruct (Z.eqb_spec (n / 10) 0) as [Hsmall|Hbig].
  1,3: exists (String (digitChar (n mod 10)) ""); repeat split;
    [ cbn; rewrite Hval; Z.div_mod_to_equations; lia
    | cbn; now rewrite Hdig
    | discriminate ].
  - exfalso. cbn in Hn. Z.div_mod_to_equations. lia.
  - destruct (IH (n / 10) (String (digitChar (n mod 10)) acc))
      as (ds & Heq & Hparse & Hall & _);
      [Z.div_mod_to_equations; lia|].
    exists (ds +:+ String (digitChar (n mod 10)) ""). repeat split.
    + rewrite Heq, append_assoc. reflexivity.
    + rewrite parseDigits_append, Hparse. cbn. rewrite Hval.
      Z.div_mod_to_equations; lia.
    + rewrite allDigits_append, Hall. cbn. now rewrite Hdig.
    + destruct ds; discriminate.
Qed.

Lemma natToString_digits (n : Z) :
  0 <= n ->
  parseDigits 0 (natToString n) = n
  /\ allDigits (natToString n) = true /\ natToString n <> "".
Proof.
  intros Hn. unfold natToString.
  destruct (digitsFrom_digits (Z.to_nat (Z.log2 n)) n "")
    as (ds & Heq & Hparse & Hall & Hne).
  - split; [exact Hn|].
    rewrite Nat2Z.inj_succ, Z2Nat.id by apply Z.log2_nonneg.
    destruct (Z.eq_dec n 0) as [->|Hpos]; [reflexivity|].
    pose proof (Z.log2_spec n ltac:(lia)) as [_ Hlt].
    eapply Z.lt_le_trans; [exact Hlt|].
    apply Z.pow_le_mono_l. lia.
  - rewrite Heq, append_nil_r. auto.
Qed.

Lemma append_cancel_r (a b c : string) : a +:+ c = b +:+ c -> a = b.
Proof.
  intros Heq.
  assert (Hlen : String.length a = String.length b).
  { apply (f_equal String.length) in Heq. rewrite !length_append in Heq. lia. }
  revert b Heq Hlen. induction a as [|x a IH]; intros [|y b] Heq Hlen;
    try discriminate; [reflexivity|].
  cbn in Heq. injection Heq as -> Heq. f_equal. apply IH; [exact Heq|].
  cbn in Hlen. lia.
Qed.

Lemma append_cancel_l (a b c : string) : c +:+ a = c +:+ b -> a = b.
Proof. induction c as [|x c IH]; cbn; [auto|]. intros [= Heq]. auto. Qed.

Lemma intToString_nonempty (n : Z) : intToString n <> "".
Proof.
  unfold intToString. destruct (n <? 0) eqn:Hneg; [discriminate|].
  apply natToString_digits. apply Z.ltb_ge in Hneg. lia.
Qed.

Lemma intToString_inj (a b : Z) : intToString a = intToString b -> a = b.
Proof.
  unfold intToString.
  destruct (Z.ltb_spec a 0) as [Ha|Ha], (Z.ltb_spec b 0) as [Hb|Hb].
  - intros Heq%append_cancel_l.
    pose proof (natToString_digits (- a) ltac:(lia)) as [Hpa _].
    pose proof (natToString_digits (- b) ltac:(lia)) as [Hpb _].
    rewrite Heq in Hpa. lia.
  - intros Heq. pose proof (natToString_digits b Hb) as (_ & Hall & _).
    rewrite <- Heq in Hall. discriminate Hall.
  - intros Heq. pose proof (natToString_digits a Ha) as (_ & Hall & _).
    rewrite Heq in Hall. discriminate Hall.
  - intros Heq.
    pose proof (natToString_digits a Ha) as [Hpa _].
    pose proof (natToString_digits b Hb) as [Hpb _].
    rewrite Heq in Hpa. lia.
Qed.


(** ** Rendering with the default templates *)

Lemma classify_text (msg : TelegramMessage) :
  classify msg = KText -> exists c t, text msg = Some (String c t).
Proof.
  unfold classify. destruct (text msg) as [[|c t]|]; [|eauto|].
  all: destruct (photo msg); [discriminate|].
  all: destruct (document msg); [discriminate|].
  all: destruct (audio msg); [discriminate|].
  all: destruct (voice msg); [discriminate|].
  all: destruct (from_option truthy false (video msg)); [discriminate|].
  all: destruct (sticker msg); [discriminate|].
  all: destruct (location msg); discriminate.
Qed.

Lemma classify_field (msg : TelegramMessage) :
  match classify msg with
  | KVoice => is_Some (voice msg)
  | KLocation => is_Some (location msg)
  | _ => True
  end.
Proof.
  unfold classify. destruct (text msg) as [[|c t]|]; [|exact I|].
  all: destruct (photo msg); [exact I|].
  all: destruct (document msg); [exact I|].
  all: destruct (audio msg); [exact I|].
  all: destruct (voice msg); [eauto|].
  all: destruct (from_option truthy false (video msg)); [exact I|].
  all: destruct (sticker msg); [exact I|].
  all: destruct (location msg); [eauto | exact I].
Qed.

Lemma orDefault_nonempty (o : option string) (d : string) :
  d <> "" -> orDefault o d <> "".
Proof. intros Hd. destruct o as [[|c s]|]; cbn; congruence. Qed.

(** Render a template that is literal text around one marker. *)
Ltac one_marker pre key post :=
  etrans;
  [ apply (processTemplate_around_marker pre key post);
    solve [ reflexivity | discriminate | apply lookup_singleton_eq
          | apply intToString_nonempty | now apply orDefault_nonempty ]
  | cbn; rewrite ?append_nil_r; reflexivity ].

(** X1.  With the default templates the content block of a message is
    the fixed text of its kind followed by the value taken from the
    message: the text, the caption or ["No caption"], the file name or
    title or ["Unknown"], the duration, the emoji or ["No emoji"], the
    coordinates.  The values appear as they are, also when they contain
    markers.  (The host never renders a number as the empty string.) *)
Theorem contentBlock_default_templates (host : Host) (msg : TelegramMessage) :
  (forall q, numberToString host q <> "") ->
  contentBlock host DEFAULT_TEMPLATES msg
  = match classify msg with
    | KText => "## Message" +:+ nl +:+ nl +:+ default "" (text msg)
    | KPhoto =>
        "## Photo" +:+ nl +:+ nl +:+ "*[Photo message received]*" +:+ nl
          +:+ nl +:+ "Caption: " +:+ orDefault (caption msg) "No caption"
    | KDocument =>
        "## Document" +:+ nl +:+ nl +:+ "*[Document received]*" +:+ nl
          +:+ nl +:+ "Filename: "
          +:+ orDefault (document msg ≫= file_name) "Unknown"
    | KAudio =>
        "## Audio" +:+ nl +:+ nl +:+ "*[Audio message received]*" +:+ nl
          +:+ nl +:+ "Title: " +:+ orDefault (audio msg ≫= title) "Unknown"
    | KVoice =>
        "## Voice Message" +:+ nl +:+ nl +:+ "*[Voice message received]*"
          +:+ nl +:+ nl +:+ "Duration: "
          +:+ from_option (fun v => intToString (duration v)) "" (voice msg)
          +:+ " seconds"
    | KVideo =>
        "## Video" +:+ nl +:+ nl +:+ "*[Video message received]*" +:+ nl
          +:+ nl +:+ "Caption: " +:+ orDefault (caption msg) "No caption"
    | KSticker =>
        "## Sticker" +:+ nl +:+ nl +:+ "*[Sticker received]*" +:+ nl
          +:+ nl +:+ "Emoji: " +:+ orDefault (sticker msg ≫= emoji) "No emoji"
    | KLocation =>
        "## Location" +:+ nl +:+ nl +:+ "*[Location shared]*" +:+ nl
          +:+ nl +:+ "Latitude: "
          +:+ from_option (fun l => numberToString host (latitude l)) ""
                (location msg)
          +:+ nl +:+ "Longitude: "
          +:+ from_option (fun l => numberToString host (longitude l)) ""
                (location msg)
    | KUnknown =>
        "## Unknown Message Type" +:+ nl +:+ nl
          +:+ "*[Unsupported message type received]*"
    end.
Proof.
  intros Hhost. rewrite contentBlock_classify.
  pose proof (classify_field msg) as Hfield.
  destruct (classify msg) eqn:Hkind; cbn [templateOf variablesOf].
  - destruct (classify_text msg Hkind) as (c & t & ->).
    one_marker ("## Message" +:+ nl +:+ nl) "text" "".
  - one_marker ("## Photo" +:+ nl +:+ nl +:+ "*[Photo message received]*"
                  +:+ nl +:+ nl +:+ "Caption: ") "caption" "".
  - one_marker ("## Document" +:+ nl +:+ nl +:+ "*[Document received]*"
                  +:+ nl +:+ nl +:+ "Filename: ") "filename" "".
  - one_marker ("## Audio" +:+ nl +:+ nl +:+ "*[Audio message received]*"
                  +:+ nl +:+ nl +:+ "Title: ") "title" "".
  - destruct Hfield as [v ->].
    one_marker ("## Voice Message" +:+ nl +:+ nl
                  +:+ "*[Voice message received]*" +:+ nl +:+ nl
                  +:+ "Duration: ") "duration" " seconds".
  - one_marker ("## Video" +:+ nl +:+ nl +:+ "*[Video message received]*"
                  +:+ nl +:+ nl +:+ "Caption: ") "caption" "".
  - one_marker ("## Sticker" +:+ nl +:+ nl +:+ "*[Sticker received]*"
                  +:+ nl +:+ nl +:+ "Emoji: ") "emoji" "".
  - destruct Hfield as [l ->]. cbn [from_option].
    etrans.
    { apply (processTemplate_entry
               ("## Location" +:+ nl +:+ nl +:+ "*[Location shared]*"
                  +:+ nl +:+ nl +:+ "Latitude: ")
               "latitude" (nl +:+ "Longitude: {{longitude}}")
               _ (numberToString host (latitude l)));
        [reflexivity | now simplify_map_eq | apply Hhost]. }
    rewrite processTemplate_literal by reflexivity.
    rewrite (processTemplate_around_marker (nl +:+ "Longitude: ") "longitude" ""
               _ (numberToString host (longitude l)));
      [ now rewrite !append_assoc, append_nil_r
      | reflexivity | reflexivity | reflexivity
      | now simplify_map_eq | apply Hhost ].
  - apply processTemplate_literal. reflexivity.
Qed.

Lemma exampleHost_numbers (q : Q) : numberToString exampleHost q <> "".
Proof.
  cbn. pose proof (intToString_nonempty (Qnum q)) as Hne.
  destruct (intToString (Qnum q)); [congruence | discriminate].
Qed.

Lemma contentBlock_default_templates_witness :
  (forall q, numberToString exampleHost q <> "")
  /\ contentBlock exampleHost DEFAULT_TEMPLATES
       {| message_id := 7; from := None; chat := chat exampleMessage;
          date := 1710000000; text := Some ""; caption := None;
          photo := None; document := None; audio := None; voice := None;
          video := None; sticker := None;
          location := Some {| latitude := 1234 # 100;
                              longitude := 5678 # 100 |} |}
     = "## Location" +:+ nl +:+ nl +:+ "*[Location shared]*" +:+ nl +:+ nl
         +:+ "Latitude: 1234/100" +:+ nl +:+ "Longitude: 5678/100".
Proof.
  split; [exact exampleHost_numbers|].
  rewrite (contentBlock_default_templates exampleHost _ exampleHost_numbers).
  reflexivity.
Defined.

(** ** Outcome and file name of [processMessage] *)


(** X3.  Two messages with the same date, rendered with the same
    settings, get the same file path exactly when they have the same
    message id: distinct ids never collide, and the path depends on
    nothing else in the message. *)
Theorem processMessage_path_by_message_id (host : Host)
    (settings : TelegramSyncSettings) (m1 m2 : TelegramMessage)
    (path1 body1 path2 body2 : string) :
  date m1 = date m2 ->
  processMessage host settings m1 = Ok (path1, body1) ->
  processMessage host settings m2 = Ok (path2, body2) ->
  (path1 = path2 <-> message_id m1 = message_id m2).
Proof.
  unfold processMessage. intros <-.
  destruct (toISOString (newDate (date m1 * 1000))) as [iso|]; cbn [JS.bind];
    [|discriminate].
  generalize (sliceTo 19 (replaceColonDot iso)). intros stamp.
  intros [= <- _] [= <- _]. split; [|now intros ->].
  intros Heq. apply append_cancel_l in Heq. injection Heq as Heq.
  apply append_cancel_l in Heq. injection Heq as Heq.
  apply append_cancel_r in Heq. now apply intToString_inj.
Qed.

Lemma processMessage_path_by_message_id_witness :
  date exampleMessage = date (textMessage "again")
  /\ processMessage exampleHost exampleSettings exampleMessage
     = Ok ("Telegram/2024-03-09T16-00-00-42.md",
           "## Message" +:+ nl +:+ nl +:+ "hello")
  /\ processMessage exampleHost exampleSettings (textMessage "again")
     = Ok ("Telegram/2024-03-09T16-00-00-42.md",
           "## Message" +:+ nl +:+ nl +:+ "again")
  /\ ("Telegram/2024-03-09T16-00-00-42.md"
      = "Telegram/2024-03-09T16-00-00-42.md"
      <-> message_id exampleMessage = message_id (textMessage "again")).
Proof.
  split; [reflexivity|]. split; [vm_compute; reflexivity|].
  split; [vm_compute; reflexivity|].
  apply (processMessage_path_by_message_id exampleHost exampleSettings
           exampleMessage (textMessage "again") _
           ("## Message" +:+ nl +:+ nl +:+ "hello") _
           ("## Message" +:+ nl +:+ nl +:+ "again"));
    [reflexivity | vm_compute; reflexivity | vm_compute; reflexivity].
Defined.

(** ** Folder provisioning: what is created, and where it fails *)

Lemma visitedPaths_longer (folders : list string) :
  forall (currentPath q : string),
    In q (visitedPaths folders currentPath) ->
    (String.length currentPath <= String.length q)%nat.
Proof.
  induction folders as [|folder rest IH]; intros cur q; cbn [visitedPaths].
  - intros [].
  - intros [<- | Hin].
    + rewrite length_append. lia.
    + apply IH in Hin. rewrite !length_append in Hin. lia.
Qed.

Lemma visitedPaths_fresh (rest : list string) (q : string) :
  ~ In q (visitedPaths rest (q +:+ "/")).
Proof.
  intros Hin%visitedPaths_longer. rewrite length_append in Hin.
  cbn in Hin. lia.
Qed.

Lemma filter_missing_insert (q : string) (v : gset string) (l : list string) :
  ~ In q l ->
  List.filter (fun x => negb (bool_decide (x ∈ {[q]} ∪ v))) l
  = List.filter (fun x => negb (bool_decide (x ∈ v))) l.
Proof.
  intros Hq. apply filter_ext_in. intros x Hx. f_equal.
  apply bool_decide_ext. rewrite elem_of_union, elem_of_singleton.
  split; [intros [->|]; [contradiction | assumption] | auto].
Qed.

Lemma ensureFolders_creates_missing (faults : VaultFaults)
    (folders : list string) :
  forall (cur : string) (v : gset string),
    outcome (ensureFolders faults folders cur v) = Ok tt ->
    creationCalls (ensureFolders faults folders cur v)
    = List.filter (fun q => negb (bool_decide (q ∈ v)))
        (visitedPaths folders cur)
    /\ vaultAfter (ensureFolders faults folders cur v)
       = list_to_set (visitedPaths folders cur) ∪ v.
Proof.
  induction folders as [|folder rest IH]; intros cur v;
    cbn [ensureFolders visitedPaths List.filter].
  - intros _. split; [reflexivity|].
    cbn [list_to_set]. now rewrite (left_id_L ∅ (∪)).
  - unfold adapterExists, createFolder.
    destruct (existsRejects faults (cur +:+ folder)); [discriminate|].
    destruct (bool_decide_reflect (cur +:+ folder ∈ v)) as [Hin|Hout];
      cbn [negb].
    + intros Hok. destruct (IH _ _ Hok) as [-> ->]. split; [reflexivity|].
      cbn [list_to_set]. apply set_eq. intros x.
      rewrite !elem_of_union, elem_of_singleton.
      split; [tauto | intros [[->|]|]; auto].
    + destruct (createFolderRejects faults (cur +:+ folder)); [discriminate|].
      rewrite created_outcome. cbn [creationCalls vaultAfter created].
      intros Hok. destruct (IH _ _ Hok) as [-> ->]. split.
      * f_equal. apply filter_missing_insert, visitedPaths_fresh.
      * cbn [list_to_set]. apply set_eq. intros x.
        rewrite !elem_of_union, elem_of_singleton. tauto.
Qed.

(** X4.  When [ensureFolderExists] succeeds, it has called
    [createFolder] on exactly the visited paths that were missing from
    the vault, parents before children, and the vault then holds every
    visited path besides what it held before. *)
Theorem ensureFolderExists_creates_missing (faults : VaultFaults)
    (folderPath : string) (v : gset string) :
  outcome (ensureFolderExists faults folderPath v) = Ok tt ->
  creationCalls (ensureFolderExists faults folderPath v)
  = List.filter (fun q => negb (bool_decide (q ∈ v)))
      (visitedPaths (segments folderPath) "")
  /\ vaultAfter (ensureFolderExists faults folderPath v)
     = list_to_set (visitedPaths (segments folderPath) "") ∪ v.
Proof. apply ensureFolders_creates_missing. Qed.

Lemma ensureFolderExists_creates_missing_witness :
  outcome (ensureFolderExists noVaultFaults "Telegram/inbox/2024"
             {[ "Telegram" ]}) = Ok tt
  /\ creationCalls (ensureFolderExists noVaultFaults "Telegram/inbox/2024"
                      {[ "Telegram" ]})
     = ["Telegram/inbox"; "Telegram/inbox/2024"]
  /\ visitedPaths (segments "Telegram/inbox/2024") ""
     = ["Telegram"; "Telegram/inbox"; "Telegram/inbox/2024"]
  /\ vaultAfter (ensureFolderExists noVaultFaults "Telegram/inbox/2024"
                   {[ "Telegram" ]})
     = list_to_set (visitedPaths (segments "Telegram/inbox/2024") "")
         ∪ {[ "Telegram" ]}.
Proof.
  split; [vm_compute; reflexivity|]. split; [vm_compute; reflexivity|].
  split; [vm_compute; reflexivity|].
  apply (ensureFolderExists_creates_missing noVaultFaults
           "Telegram/inbox/2024" {[ "Telegram" ]}).
  vm_compute. reflexivity.
Defined.

Lemma ensureFolders_failure (faults : VaultFaults) (folders : list string) :
  forall (cur : string) (v : gset string) (message : string),
    outcome (ensureFolders faults folders cur v) = Throw message ->
    exists done q rest m,
      visitedPaths folders cur = done ++ q :: rest
      /\ message = failedToCreate q m
      /\ (existsRejects faults q = Some m
          \/ ((q ∉ (list_to_set done ∪ v))
              /\ createFolderRejects faults q = Some m))
      /\ vaultAfter (ensureFolders faults folders cur v)
         = list_to_set done ∪ v.
Proof.
  induction folders as [|folder rest IH]; intros cur v message;
    cbn [ensureFolders visitedPaths]; [discriminate|].
  unfold adapterExists, createFolder.
  destruct (existsRejects faults (cur +:+ folder)) as [m|] eqn:Hcheck.
  { intros [= <-]. exists [], (cur +:+ folder), (visitedPaths rest ((cur +:+ folder) +:+ "/")), m.
    cbn [vaultAfter list_to_set app]. split; [reflexivity|].
    split; [reflexivity|]. split; [now left|]. now rewrite (left_id_L ∅ (∪)). }
  destruct (bool_decide_reflect (cur +:+ folder ∈ v)) as [Hin|Hout].
  { intros Hfail.
    destruct (IH _ _ _ Hfail) as (done & q & rest' & m & Hvisit & -> & Hwhy & Hafter).
    exists ((cur +:+ folder) :: done), q, rest', m.
    rewrite Hvisit, Hafter. cbn [list_to_set app].
    split; [reflexivity|]. split; [reflexivity|].
    assert (Hsame : ({[cur +:+ folder]} ∪ list_to_set done) ∪ v
                    = list_to_set done ∪ v ).
    { apply set_eq. intros x. rewrite !elem_of_union, elem_of_singleton.
      split; [intros [[->|]|]; auto | intros [|]; auto]. }
    rewrite Hsame. auto. }
  destruct (createFolderRejects faults (cur +:+ folder)) as [m|] eqn:Hmake.
  { intros [= <-]. exists [], (cur +:+ folder), (visitedPaths rest ((cur +:+ folder) +:+ "/")), m.
    cbn [vaultAfter list_to_set app]. rewrite (left_id_L ∅ (∪)).
    split; [reflexivity|]. split; [reflexivity|]. split; [|reflexivity].
    right. auto. }
  rewrite created_outcome. cbn [vaultAfter created]. intros Hfail.
  destruct (IH _ _ _ Hfail) as (done & q & rest' & m & Hvisit & -> & Hwhy & Hafter).
  exists ((cur +:+ folder) :: done), q, rest', m.
  rewrite Hvisit, Hafter. cbn [list_to_set app].
  assert (Hsame : list_to_set done ∪ ({[cur +:+ folder]} ∪ v)
                  = ({[cur +:+ folder]} ∪ list_to_set done) ∪ v ).
  { apply set_eq. intros x. rewrite !elem_of_union, elem_of_singleton. tauto. }
  rewrite Hsame in *. auto.
Qed.

(** X5.  When [ensureFolderExists] fails, it fails at one visited path:
    the error names that path and carries the message of the rejected
    [exists] or [createFolder] call, no later path is visited, and the
    folders created for the earlier paths stay in the vault. *)
Theorem ensureFolderExists_failure (faults : VaultFaults)
    (folderPath : string) (v : gset string) (message : string) :
  outcome (ensureFolderExists faults folderPath v) = Throw message ->
  exists done q rest m,
    visitedPaths (segments folderPath) "" = done ++ q :: rest
    /\ message = "Failed to create folder " +:+ q +:+ ": " +:+ m
    /\ (existsRejects faults q = Some m
        \/ ((q ∉ (list_to_set done ∪ v))
            /\ createFolderRejects faults q = Some m))
    /\ vaultAfter (ensureFolderExists faults folderPath v)
       = list_to_set done ∪ v.
Proof. apply ensureFolders_failure. Qed.

Lemma ensureFolderExists_failure_witness :
  outcome (ensureFolderExists (denyCreateFolder "Telegram/inbox" "EACCES")
             "Telegram/inbox/2024" ∅)
  = Throw "Failed to create folder Telegram/inbox: EACCES"
  /\ exists done q rest m,
       visitedPaths (segments "Telegram/inbox/2024") "" = done ++ q :: rest
       /\ "Failed to create folder Telegram/inbox: EACCES"
          = "Failed to create folder " +:+ q +:+ ": " +:+ m
       /\ (existsRejects (denyCreateFolder "Telegram/inbox" "EACCES") q
           = Some m
           \/ ((q ∉ (list_to_set done ∪ (∅ : gset string)))
               /\ createFolderRejects
                    (denyCreateFolder "Telegram/inbox" "EACCES") q = Some m))
       /\ vaultAfter
            (ensureFolderExists (denyCreateFolder "Telegram/inbox" "EACCES")
               "Telegram/inbox/2024" ∅)
          = list_to_set done ∪ ∅.
Proof.
  split; [vm_compute; reflexivity|].
  apply (ensureFolderExists_failure
           (denyCreateFolder "Telegram/inbox" "EACCES")
           "Telegram/inbox/2024" ∅).
  vm_compute. reflexivity.
Defined.

(** ** The session keeps one connection *)

Lemma connected_stopBot (env : Environment) (p : Plugin) :
  stopPollingRejects env = None ->
  connected p ->
  connected (stopBot env p)
  /\ session (stopBot env p) = Stopped
  /\ polling (stopBot env p) = []
  /\ settings (stopBot env p) = settings p
  /\ vault (stopBot env p) = vault p
  /\ nextConnection (stopBot env p) = nextConnection p.
Proof.
  intros Hclose Hp. unfold connected in Hp.
  unfold stopBot, stopPolling. rewrite Hclose.
  destruct p as [s [b|] pl nx v ns h]; cbn in Hp; subst pl; cbn.
  - rewrite Nat.eqb_refl. repeat split.
  - repeat split.
Qed.




(** X7.  A successful [startBot] leaves a fresh bot with the message
    listener and, exactly when command support is on, the three command
    listeners; listeners of an earlier bot are not carried over.  With
    command support off no message gets a reply; with it on, a message
    gets one reply per command contained in its text, in the order help,
    status, notes, each to the chat the message came from. *)
Theorem startBot_listeners (env : Environment) (p : Plugin) :
  stopPollingRejects env = None ->
  connected p ->
  botToken (settings p) <> "" ->
  outcome (ensureFolderExists (vaultFaults env) (folderPath (settings p))
             (vault p)) = Ok tt ->
  connectThrows env = None ->
  bot (startBot env p)
  = Some {| connection := nextConnection p;
            token := botToken (settings p);
            onMessage := true;
            onText := if supportCommands (settings p)
                      then [helpPattern; statusPattern; notesPattern]
                      else [] |}
  /\ forall files msg,
       commandReplies (startBot env p) files msg
       = if supportCommands (settings p)
         then map (fun c => (chat_id (chat msg),
                             replyOf (settings p) files (patternOf c)))
                  (List.filter (fun c => fires (patternOf c) msg)
                     [Help; Status; Notes])
         else [].
Proof.
  intros Hclose Hp Htoken Hfolder Hconnect.
  destruct (connected_stopBot env p Hclose Hp)
    as (_ & Hs & Hpl & Hset & Hv & Hnx).
  unfold commandReplies, startBot.
  set (q := stopBot env p) in *. clearbody q.
  destruct q as [s bt pl nx v ns h]. unfold session in Hs.
  cbn in Hs, Hpl, Hset, Hv, Hnx. destruct bt; [discriminate|].
  subst pl s v nx.
  cbn -[ensureFolderExists truthyString].
  rewrite (proj2 (truthyString_true _) Htoken). cbn [negb].
  rewrite Hfolder, Hconnect.
  destruct (supportCommands (settings p)); cbn; split; try reflexivity.
  intros files msg.
  destruct (fires helpPattern msg), (fires statusPattern msg),
    (fires notesPattern msg); reflexivity.
Qed.

Lemma startBot_listeners_witness :
  stopPollingRejects quietEnvironment = None
  /\ connected (runningPlugin "123456:TOKEN")
  /\ botToken (settings (runningPlugin "123456:TOKEN")) <> ""
  /\ outcome (ensureFolderExists (vaultFaults quietEnvironment)
                (folderPath (settings (runningPlugin "123456:TOKEN")))
                (vault (runningPlugin "123456:TOKEN"))) = Ok tt
  /\ connectThrows quietEnvironment = None
  /\ commandReplies (startBot quietEnvironment (runningPlugin "123456:TOKEN"))
       [] (textMessage "is /status or /help there?")
     = [(1, helpText); (1, "Bot is running and connected to Obsidian")].
Proof.
  split; [reflexivity|]. split; [reflexivity|]. split; [discriminate|].
  split; [reflexivity|]. split; [reflexivity|].
  rewrite (proj2 (startBot_listeners quietEnvironment
                    (runningPlugin "123456:TOKEN") eq_refl eq_refl
                    ltac:(discriminate) eq_refl eq_refl)).
  reflexivity.
Defined.

(** ** The message listener *)

(** X8.  The message listener never touches the session: bot, open
    connections, settings and folders are as before, whatever the
    message.  It either changes nothing of the plugin or leaves the notes
    as they were and shows one more notice with the error's message; a
    message with an invalid date takes the second way, and a message that
    renders to a free path the vault accepts is written there. *)
Theorem onMessageEvent_contained (host : Host)
    (createRejects : string -> option string)
    (p : Plugin) (files : gmap string string) (msg : TelegramMessage) :
  bot (onMessageEvent host createRejects p files msg).1 = bot p
  /\ polling (onMessageEvent host createRejects p files msg).1 = polling p
  /\ settings (onMessageEvent host createRejects p files msg).1 = settings p
  /\ vault (onMessageEvent host createRejects p files msg).1 = vault p
  /\ ((onMessageEvent host createRejects p files msg).1 = p
      \/ (onMessageEvent host createRejects p files msg).2 = files
         /\ exists m,
              notices (onMessageEvent host createRejects p files msg).1
              = notices p ++ ["Error processing Telegram message: " +:+ m])
  /\ (maxTime < Z.abs (date msg * 1000) ->
      onMessageEvent host createRejects p files msg
      = (notice "Error processing Telegram message: Invalid time value" p,
         files))
  /\ (forall path body,
        processMessage host (settings p) msg = Ok (path, body) ->
        createRejects path = None ->
        files !! path = None ->
        onMessageEvent host createRejects p files msg
        = (p, <[ path := body ]> files)).
Proof.
  unfold onMessageEvent.
  split; [|split; [|split; [|split; [|split; [|split]]]]].
  1-4: destruct (JS.bind _ _); reflexivity.
  - destruct (JS.bind _ _); [now left | right; eauto].
  - intros Hdate.
    now rewrite (processMessage_invalid_date host (settings p) msg Hdate).
  - intros path body -> Hcreate Hfree. unfold vaultCreate. cbn.
    now rewrite Hcreate, Hfree.
Qed.

(** ** Loading what was saved *)

(** X9.  Loading the settings that a load produced gives them back
    unchanged; loading with nothing stored gives the defaults; and
    whatever is stored, every default field is present afterwards. *)
Theorem loadSettings_saved (data : option (gmap string SettingValue)) :
  loadSettings (Some (loadSettings data)) = loadSettings data
  /\ loadSettings None = settingsObject DEFAULT_SETTINGS
  /\ dom (settingsObject DEFAULT_SETTINGS) ⊆ dom (loadSettings data).
Proof.
  split; [|split].
  - apply map_eq. intros key. rewrite (loadSettings_lookup (Some _)).
    cbn [mbind option_bind]. rewrite loadSettings_lookup.
    destruct (data ≫= _); [reflexivity|].
    now destruct (settingsObject DEFAULT_SETTINGS !! key).
  - apply map_eq. intros key. now rewrite loadSettings_lookup.
  - intros key [v Hv]%elem_of_dom. apply elem_of_dom.
    rewrite loadSettings_lookup, Hv. destruct (data ≫= _); eauto.
Qed.
